(** * Executive: the transaction-execution driver of libethereum

    A shallow embedding of [libethereum/Executive.cpp].  The five member
    functions [setup], [call], [create], [go] and [finalize] are transcribed
    statement by statement as functions over an explicit [Executive] record;
    the ledger [State] the C++ object holds by reference is a field of that
    record, so that every mutation of [m_s] is visible in the result.

    Fixed-width integers ([u256]) are integers of [Z] with the reduction
    modulo [2^256] written out at every arithmetic operation; [bigint]
    values are plain [Z]. *)

From Stdlib Require Import ZArith Lia List Bool.
From stdpp Require Import gmap list.

Local Open Scope Z_scope.

(** ** 256-bit unsigned arithmetic *)

Module U256.

Definition modulus : Z := 2 ^ 256.

Definition wrap (x : Z) : Z := x mod modulus.

Definition add (a b : Z) : Z := wrap (a + b).
Definition sub (a b : Z) : Z := wrap (a - b).
Definition mul (a b : Z) : Z := wrap (a * b).

Definition in_range (x : Z) : Prop := 0 <= x < modulus.

End U256.

(** ** Data model *)

(** Addresses are 160-bit hashes ([h160]); byte strings are lists of byte
    values. *)
Abbreviation Address := Z (only parsing).
Abbreviation bytes := (list Z) (only parsing).

Definition h160_modulus : Z := 2 ^ 160.

(** [right160]: the low-order 160 bits of a 256-bit hash. *)
Definition right160 (h : Z) : Z := h mod h160_modulus.

Record LogEntry := mkLogEntry {
  log_address : Address;
  log_topics : list Z;
  log_data : bytes
}.

(** Modelled from the spec: the account record of [Account.h], which is not
    part of this translation unit.  "Account: mutable -- balance
    (non-negative integer), nonce, code (absent or present), persistent
    key/value storage." *)
Record Account := mkAccount {
  acc_balance : Z;
  acc_nonce : Z;
  acc_code : bytes;
  acc_storage : gmap Z Z
}.

(** Modelled from the spec: the default-constructed account [m_cache[a]]
    yields when [a] is absent ([Account.h] is not part of this translation
    unit): no balance, no nonce, no code, no storage. *)
Definition Account_default : Account :=
  {| acc_balance := 0; acc_nonce := 0; acc_code := []; acc_storage := ∅ |}.

(** Modelled from the spec: [Account(_balance, ContractConception)] of
    [Account.h], the account of a contract being created ("Create the new
    account immediately with balance = its pre-existing balance plus
    endowment"): the given balance, nothing else. *)
Definition Account_conception (b : Z) : Account :=
  {| acc_balance := b; acc_nonce := 0; acc_code := []; acc_storage := ∅ |}.

(** Modelled from the spec: [Account::setCode] of [Account.h] ("install
    the produced output bytes as that address's code"). *)
Definition Account_setCode (c : bytes) (a : Account) : Account :=
  {| acc_balance := acc_balance a; acc_nonce := acc_nonce a;
     acc_code := c; acc_storage := acc_storage a |}.

(** Modelled from the spec: [Account::addBalance] of [Account.h]
    ("debit/credit balance"), on a 256-bit balance; a debit is a credit of
    the negated amount. *)
Definition Account_addBalance (v : Z) (a : Account) : Account :=
  {| acc_balance := U256.wrap (acc_balance a + v); acc_nonce := acc_nonce a;
     acc_code := acc_code a; acc_storage := acc_storage a |}.

(** Modelled from the spec: [Account::incNonce] of [Account.h]
    ("increment sender nonce by one"), on a 256-bit nonce. *)
Definition Account_incNonce (a : Account) : Account :=
  {| acc_balance := acc_balance a; acc_nonce := U256.add (acc_nonce a) 1;
     acc_code := acc_code a; acc_storage := acc_storage a |}.

(** Modelled from the spec: the fields of [BlockInfo] the executive reads
    ("current block's gas-used-so-far, gas-limit, and fee-recipient
    address"); [BlockInfo.h] is not part of this translation unit. *)
Record BlockInfo := mkBlockInfo {
  gasLimit : Z;
  coinbaseAddress : Address
}.

(** Modelled from the spec: the ledger [State] of [State.h], which is not
    part of this translation unit.  "Ledger State: mutable mapping from
    account address to account record; exposes balance/nonce queries and
    mutators, code lookup, a per-block context".  The block's cumulative
    gas used so far is a field. *)
Record State := mkState {
  m_cache : gmap Z Account;
  st_gasUsed : Z;
  m_currentBlock : BlockInfo
}.

Definition with_cache (c : gmap Z Account) (s : State) : State :=
  {| m_cache := c; st_gasUsed := st_gasUsed s; m_currentBlock := m_currentBlock s |}.

(** Reading [m_cache[a]]: the stored record, or a default one. *)
Definition account (s : State) (a : Address) : Account :=
  default Account_default (m_cache s !! a).

(** Writing through [m_cache[a]]. *)
Definition update_account (f : Account -> Account) (a : Address) (s : State) : State :=
  with_cache (<[a := f (account s a)]> (m_cache s)) s.

(** The queries and mutators of [State.h] the executive calls; [State.cpp]
    is not part of this translation unit. *)

(** Modelled from the spec: [State::transactionsFrom], "current
    nonce-for-address". *)
Definition transactionsFrom (s : State) (a : Address) : Z := acc_nonce (account s a).

(** Modelled from the spec: [State::balance], "balance-for-address". *)
Definition balance (s : State) (a : Address) : Z := acc_balance (account s a).

(** Modelled from the spec: [State::code], "code-bytes-for-address". *)
Definition code (s : State) (a : Address) : bytes := acc_code (account s a).

(** Modelled from the spec: [State::addressHasCode],
    "has-code-for-address". *)
Definition addressHasCode (s : State) (a : Address) : bool :=
  negb (Nat.eqb (length (code s a)) 0).

(** Modelled from the spec: [State::gasUsed], the "current block's
    gas-used-so-far". *)
Definition gasUsed (s : State) : Z := st_gasUsed s.

(** Modelled from the spec: [State::addBalance], "credit balance". *)
Definition addBalance (s : State) (a : Address) (v : Z) : State :=
  update_account (Account_addBalance v) a s.

(** Modelled from the spec: [State::subBalance], "debit balance". *)
Definition subBalance (s : State) (a : Address) (v : Z) : State :=
  update_account (Account_addBalance (- v)) a s.

(** Modelled from the spec: [State::noteSending], "mark-nonce-used":
    "increment sender nonce by one". *)
Definition noteSending (s : State) (a : Address) : State :=
  update_account Account_incNonce a s.

(** Modelled from the spec: [m_s.m_cache[a].kill()], with [Account::kill]
    of [Account.h]: "remove that account from the Ledger State (balance,
    code, storage all cleared)". *)
Definition kill (a : Address) (s : State) : State :=
  with_cache (delete a (m_cache s)) s.

(** A ledger state is well formed when every stored quantity is a [u256]. *)
Definition wf_Account (a : Account) : Prop :=
  U256.in_range (acc_balance a) /\ U256.in_range (acc_nonce a).

Definition wf_State (s : State) : Prop :=
  map_Forall (fun _ acc => wf_Account acc) (m_cache s) /\
  U256.in_range (st_gasUsed s) /\
  U256.in_range (gasLimit (m_currentBlock s)).

(** ** Transactions *)

(** Modelled from the spec: the decoded transaction of [Transaction.h].
    "Transaction: immutable record -- sender (recovered from signature),
    optional receiver (absent => creation), value, gas limit, gas price,
    nonce, and payload data." *)
Record Transaction := mkTransaction {
  nonce : Z;
  value : Z;
  receiveAddress : option Address;
  gasPrice : Z;
  gas : Z;
  data : bytes;
  sender : Address
}.

(** Modelled from the spec: [Transaction::isCreation], "optional receiver
    (absent => creation)". *)
Definition isCreation (t : Transaction) : bool :=
  match receiveAddress t with None => true | Some _ => false end.

(** The default-constructed transaction an executive holds before
    [setup]. *)
Definition Transaction_default : Transaction :=
  {| nonce := 0; value := 0; receiveAddress := None; gasPrice := 0; gas := 0;
     data := []; sender := 0 |}.

Definition wf_Transaction (t : Transaction) : Prop :=
  U256.in_range (nonce t) /\ U256.in_range (value t) /\
  U256.in_range (gasPrice t) /\ U256.in_range (gas t).

(** ** Execution context adapter and interpreter handle *)

(** Modelled from the spec: the sub-state a frame accumulates, read by
    the executive as [sub.suicides], [sub.logs], [sub.refunds]
    ("accumulated logs, refund counter, and self-destruct set");
    [ExtVMFace.h] is not part of this translation unit. *)
Record SubState := mkSubState {
  suicides : gset Z;
  logs : list LogEntry;
  refunds : Z
}.

Definition SubState_empty : SubState :=
  {| suicides := ∅; logs := []; refunds := 0 |}.

(** Modelled from the spec: the adapter [ExtVM] of [ExtVM.h], with the
    construction parameters in the order the executive passes them ("this
    frame's address, sender, origin, value, gas price, input, code, depth")
    and its sub-state.  The [State&] it holds is the executive's own
    [m_s]. *)
Record ExtVM := mkExtVM {
  myAddress : Address;
  caller : Address;
  origin : Address;
  ext_value : Z;
  ext_gasPrice : Z;
  ext_data : bytes;
  ext_code : bytes;
  depth : Z;
  sub : SubState
}.

Definition with_sub (u : SubState) (x : ExtVM) : ExtVM :=
  {| myAddress := myAddress x; caller := caller x; origin := origin x;
     ext_value := ext_value x; ext_gasPrice := ext_gasPrice x;
     ext_data := ext_data x; ext_code := ext_code x; depth := depth x;
     sub := u |}.

(** Modelled from the spec: [ExtVM::revert] of [ExtVM.h], which is not part
    of this translation unit.  "a revert operation that discards all three"
    (accumulated logs, refund counter, and self-destruct set). *)
Definition revert (x : ExtVM) : ExtVM := with_sub SubState_empty x.

(** Modelled from the spec: the interpreter instance of [VM.h]
    ("instantiate-with-gas-budget; ... query remaining gas"):
    [VMFactory::create(_gas)] holds the gas budget, [gas()] reads what is
    left. *)
Record VM := mkVM { vm_gas : Z }.

Definition VMFactory_create (_gas : Z) : VM := {| vm_gas := _gas |}.

(** How a run of the interpreter over the adapter ([m_vm->go]) ends: by
    returning output bytes, or by one of the exceptions the handlers of
    [Executive::go] tell apart. *)
Inductive VMSignal :=
| Returned (out : bytes)
| StepsDone
| VMException
| Exception
| StdException.

(** What a run leaves behind, whichever way it ends: the gas left in the
    interpreter, the accounts of the ledger state as the code mutated them
    through the adapter, and the adapter's sub-state. *)
Record VMRun := mkVMRun {
  run_signal : VMSignal;
  run_gas : Z;
  run_cache : gmap Z Account;
  run_sub : SubState
}.

(** A native contract of [State::precompiled()]: its gas-cost function (a
    [bigint]) and its execute function. *)
Record PrecompiledAddress := mkPrecompiledAddress {
  pc_gas : bytes -> Z;
  pc_exec : bytes -> bytes
}.

(** The collaborators [Executive.cpp] consumes and does not define: the
    intrinsic gas of a payload ([Interface::txGas], a [bigint]), the
    registry of native contracts, the per-byte deployment constant
    [c_createDataGas], the hash [sha3] and the encoder [rlpList] used for
    address derivation, the wire decoder of [Transaction], and the
    interpreter. *)
Record Collaborators := mkCollaborators {
  txGas : bytes -> Z;
  precompiled : gmap Z PrecompiledAddress;
  c_createDataGas : Z;
  sha3 : bytes -> Z;
  rlpList : Address -> Z -> bytes;
  Transaction_decode : bytes -> option Transaction;
  vm_go : State -> ExtVM -> Z -> VMRun
}.

(** ** The executive *)

Record Executive := mkExecutive {
  m_s : State;
  m_t : Transaction;
  m_sender : Address;
  m_depth : Z;
  m_isCreation : bool;
  m_newAddress : Address;
  m_endGas : Z;
  m_out : bytes;
  m_logs : list LogEntry;
  m_excepted : bool;
  m_vm : option VM;
  m_ext : option ExtVM;
  (** instrumentation: every invocation of a native contract's [exec], most
      recent first, as (registry key, input) *)
  native_runs : list (Z * bytes)
}.

(** [Executive(State& _s, unsigned _level)]. *)
Definition Executive_new (s : State) (level : Z) : Executive :=
  {| m_s := s; m_t := Transaction_default; m_sender := 0; m_depth := level;
     m_isCreation := false; m_newAddress := 0; m_endGas := 0; m_out := [];
     m_logs := []; m_excepted := false; m_vm := None; m_ext := None;
     native_runs := [] |}.

Definition set_s (x : State) (e : Executive) : Executive :=
  mkExecutive x (m_t e) (m_sender e) (m_depth e) (m_isCreation e)
    (m_newAddress e) (m_endGas e) (m_out e) (m_logs e) (m_excepted e)
    (m_vm e) (m_ext e) (native_runs e).
Definition set_t (x : Transaction) (e : Executive) : Executive :=
  mkExecutive (m_s e) x (m_sender e) (m_depth e) (m_isCreation e)
    (m_newAddress e) (m_endGas e) (m_out e) (m_logs e) (m_excepted e)
    (m_vm e) (m_ext e) (native_runs e).
Definition set_sender (x : Address) (e : Executive) : Executive :=
  mkExecutive (m_s e) (m_t e) x (m_depth e) (m_isCreation e)
    (m_newAddress e) (m_endGas e) (m_out e) (m_logs e) (m_excepted e)
    (m_vm e) (m_ext e) (native_runs e).
Definition set_isCreation (x : bool) (e : Executive) : Executive :=
  mkExecutive (m_s e) (m_t e) (m_sender e) (m_depth e) x
    (m_newAddress e) (m_endGas e) (m_out e) (m_logs e) (m_excepted e)
    (m_vm e) (m_ext e) (native_runs e).
Definition set_newAddress (x : Address) (e : Executive) : Executive :=
  mkExecutive (m_s e) (m_t e) (m_sender e) (m_depth e) (m_isCreation e)
    x (m_endGas e) (m_out e) (m_logs e) (m_excepted e)
    (m_vm e) (m_ext e) (native_runs e).
Definition set_endGas (x : Z) (e : Executive) : Executive :=
  mkExecutive (m_s e) (m_t e) (m_sender e) (m_depth e) (m_isCreation e)
    (m_newAddress e) x (m_out e) (m_logs e) (m_excepted e)
    (m_vm e) (m_ext e) (native_runs e).
Definition set_out (x : bytes) (e : Executive) : Executive :=
  mkExecutive (m_s e) (m_t e) (m_sender e) (m_depth e) (m_isCreation e)
    (m_newAddress e) (m_endGas e) x (m_logs e) (m_excepted e)
    (m_vm e) (m_ext e) (native_runs e).
Definition set_logs (x : list LogEntry) (e : Executive) : Executive :=
  mkExecutive (m_s e) (m_t e) (m_sender e) (m_depth e) (m_isCreation e)
    (m_newAddress e) (m_endGas e) (m_out e) x (m_excepted e)
    (m_vm e) (m_ext e) (native_runs e).
Definition set_excepted (x : bool) (e : Executive) : Executive :=
  mkExecutive (m_s e) (m_t e) (m_sender e) (m_depth e) (m_isCreation e)
    (m_newAddress e) (m_endGas e) (m_out e) (m_logs e) x
    (m_vm e) (m_ext e) (native_runs e).
Definition set_vm (x : option VM) (e : Executive) : Executive :=
  mkExecutive (m_s e) (m_t e) (m_sender e) (m_depth e) (m_isCreation e)
    (m_newAddress e) (m_endGas e) (m_out e) (m_logs e) (m_excepted e)
    x (m_ext e) (native_runs e).
Definition set_ext (x : option ExtVM) (e : Executive) : Executive :=
  mkExecutive (m_s e) (m_t e) (m_sender e) (m_depth e) (m_isCreation e)
    (m_newAddress e) (m_endGas e) (m_out e) (m_logs e) (m_excepted e)
    (m_vm e) x (native_runs e).
Definition note_native_run (k : Z) (d : bytes) (e : Executive) : Executive :=
  mkExecutive (m_s e) (m_t e) (m_sender e) (m_depth e) (m_isCreation e)
    (m_newAddress e) (m_endGas e) (m_out e) (m_logs e) (m_excepted e)
    (m_vm e) (m_ext e) ((k, d) :: native_runs e).

(** The exceptions [setup] throws. *)
Inductive SetupError :=
| BadRLP
| InvalidNonce (required got : Z)
| OutOfGas (required got : Z)
| NotEnoughCash (required got : Z)
| BlockGasLimitReached (required got : Z).

(** ** The member functions *)

Definition is_null {A} (p : option A) : bool :=
  match p with None => true | Some _ => false end.

Definition bytes_empty (b : bytes) : bool :=
  match b with [] => true | _ => false end.

(** Bytes [size()] as a [u256] operand. *)
Definition size (b : bytes) : Z := Z.of_nat (length b).

(** The mask [~h160(0xffffffff)]: all address bits above the low 32. *)
Definition high_address_bits : Z := Z.lxor (h160_modulus - 1) 0xffffffff.

Section Executive.

Variable X : Collaborators.

(** [u256 Executive::gasUsed() const] *)
Definition Executive_gasUsed (e : Executive) : Z :=
  U256.sub (gas (m_t e)) (m_endGas e).

(** The iterator [it] of [Executive::call]: the registry entry of the
    receive address when that address has no bit set above the low 32, and
    [end()] otherwise. *)
Definition precompiled_find (_receiveAddress : Address) : option (Z * PrecompiledAddress) :=
  if Z.land _receiveAddress high_address_bits =? 0
  then
    let k := _receiveAddress mod 2 ^ 32 in
    match precompiled X !! k with
    | Some p => Some (k, p)
    | None => None
    end
  else None.

(** [bool Executive::call(...)] *)
Definition call (e : Executive)
    (_receiveAddress _codeAddress _senderAddress : Address)
    (_value _gasPrice : Z) (_data : bytes) (_gas : Z)
    (_originAddress : Address) : Executive * bool :=
  let e := set_isCreation false e in
  let e := set_s (addBalance (m_s e) _receiveAddress _value) e in
  match precompiled_find _receiveAddress with
  | Some (k, p) =>
      let g := pc_gas p _data in
      if _gas <? g then
        let e := set_endGas 0 e in
        (e, false)
      else
        let e := set_endGas (U256.wrap (_gas - g)) e in
        let e := note_native_run k _data e in
        (e, true)
  | None =>
      if addressHasCode (m_s e) _codeAddress then
        let e := set_vm (Some (VMFactory_create _gas)) e in
        let c := code (m_s e) _receiveAddress in
        let e := set_ext (Some (mkExtVM _receiveAddress _senderAddress
                                  _originAddress _value _gasPrice _data c
                                  (m_depth e) SubState_empty)) e in
        (e, is_null (m_ext e))
      else
        let e := set_endGas _gas e in
        (e, is_null (m_ext e))
  end.

(** The address [Executive::create] derives, as a function of the creator
    and the nonce it is given. *)
Definition contract_address (_sender : Address) (n : Z) : Address :=
  right160 (sha3 X (rlpList X _sender n)).

(** [bool Executive::create(...)] *)
Definition create (e : Executive) (_sender : Address)
    (_endowment _gasPrice _gas : Z) (_init : bytes) (_origin : Address)
    : Executive * bool :=
  let e := set_isCreation true e in
  let e := set_newAddress
             (contract_address _sender
                (U256.sub (transactionsFrom (m_s e) _sender) 1)) e in
  let e := set_s (with_cache
                    (<[m_newAddress e :=
                         Account_conception
                           (U256.add (balance (m_s e) (m_newAddress e)) _endowment)]>
                       (m_cache (m_s e)))
                    (m_s e)) e in
  let e := set_vm (Some (VMFactory_create _gas)) e in
  let e := set_ext (Some (mkExtVM (m_newAddress e) _sender _origin _endowment
                            _gasPrice [] _init (m_depth e) SubState_empty)) e in
  (e, bytes_empty _init).

(** The transaction cost [setup] charges: [value + gas * gasPrice] in
    [u256]. *)
Definition upfront_cost (t : Transaction) : Z :=
  U256.add (value t) (U256.mul (gas t) (gasPrice t)).

(** The four checks of [setup], in the order of the source; [None] when the
    transaction passes them all. *)
Definition validate (s : State) (t : Transaction) : option SetupError :=
  let nonceReq := transactionsFrom s (sender t) in
  if negb (nonce t =? nonceReq) then Some (InvalidNonce nonceReq (nonce t))
  else
    let gasCost := txGas X (data t) in
    if gas t <? gasCost then Some (OutOfGas gasCost (gas t))
    else
      let cost := upfront_cost t in
      if balance s (sender t) <? cost
      then Some (NotEnoughCash cost (balance s (sender t)))
      else
        let startGasUsed := gasUsed s in
        if U256.add startGasUsed (gas t) >? gasLimit (m_currentBlock s)
        then Some (BlockGasLimitReached
                     (U256.sub (gasLimit (m_currentBlock s)) startGasUsed) (gas t))
        else None.

(** The two mutations of [setup] that follow the checks: [noteSending] and
    [subBalance]. *)
Definition charge (e : Executive) : Executive :=
  let e := set_s (noteSending (m_s e) (m_sender e)) e in
  set_s (subBalance (m_s e) (m_sender e) (upfront_cost (m_t e))) e.

(** The tail of [setup]: [create] or [call], with the intrinsic gas taken
    off the budget. *)
Definition dispatch (e : Executive) : Executive * bool :=
  let t := m_t e in
  let gasCost := txGas X (data t) in
  match receiveAddress t with
  | None =>
      create e (m_sender e) (value t) (gasPrice t)
        (U256.sub (gas t) (U256.wrap gasCost)) (data t) (m_sender e)
  | Some r =>
      call e r r (m_sender e) (value t) (gasPrice t) (data t)
        (U256.sub (gas t) (U256.wrap gasCost)) (m_sender e)
  end.

(** [bool Executive::setup(bytesConstRef _rlp)]: the executive as the call
    leaves it, and either the exception thrown or the value returned. *)
Definition setup (e : Executive) (_rlp : bytes) : Executive * (SetupError + bool) :=
  match Transaction_decode X _rlp with
  | None => (e, inl BadRLP)
  | Some t =>
      let e := set_t t e in
      let e := set_sender (sender (m_t e)) e in
      match validate (m_s e) (m_t e) with
      | Some err => (e, inl err)
      | None =>
          let e := charge e in
          let '(e, r) := dispatch e in
          (e, inr r)
      end
  end.

(** The body of the [try] block of [go] after the interpreter returned
    [out] with [g] gas left. *)
Definition conclude (e : Executive) (out : bytes) (g : Z) (x : ExtVM) : Executive :=
  let e := set_out out e in
  let e := set_endGas g e in
  let e := set_endGas
             (U256.add (m_endGas e)
                (Z.min (U256.sub (gas (m_t e)) (m_endGas e) / 2) (refunds (sub x)))) e in
  let e := set_logs (logs (sub x)) e in
  if m_isCreation e then
    if U256.mul (size (m_out e)) (c_createDataGas X) <=? m_endGas e
    then set_endGas (U256.sub (m_endGas e)
                       (U256.mul (size (m_out e)) (c_createDataGas X))) e
    else set_out [] e
  else e.

(** [bool Executive::go(OnOpFunc const& _onOp)].  [None] stands for the
    undefined dereference of a null [m_ext] next to a live [m_vm]. *)
Definition go (e : Executive) : option (Executive * bool) :=
  match m_vm e with
  | Some vm =>
      match m_ext e with
      | None => None
      | Some x =>
          let r := vm_go X (m_s e) x (vm_gas vm) in
          let x := with_sub (run_sub r) x in
          let e := set_s (with_cache (run_cache r) (m_s e)) e in
          let e := set_vm (Some (mkVM (run_gas r))) e in
          let e := set_ext (Some x) e in
          match run_signal r with
          | Returned out => Some (conclude e out (run_gas r) x, true)
          | StepsDone => Some (e, false)
          | VMException =>
              let e := set_endGas 0 e in
              let e := set_ext (Some (revert x)) e in
              let e := set_excepted true e in
              Some (e, true)
          | Exception => Some (e, true)
          | StdException => Some (e, true)
          end
      end
  | None => Some (e, true)
  end.

(** [u256 Executive::gas() const] *)
Definition Executive_gas (e : Executive) : Z :=
  match m_vm e with
  | Some vm => vm_gas vm
  | None => m_endGas e
  end.

(** The loop [for (auto a: m_ext->sub.suicides) m_s.m_cache[a].kill()]. *)
Definition kill_all (dead : gset Z) (s : State) : State :=
  foldr kill s (elements dead).

(** The local [feesEarned] of [finalize]. *)
Definition feesEarned (e : Executive) : Z :=
  U256.mul (U256.sub (gas (m_t e)) (m_endGas e)) (gasPrice (m_t e)).

(** [void Executive::finalize(OnOpFunc const&)].  [None] stands for the
    undefined dereference of a null [m_ext] by a creation transaction. *)
Definition finalize (e : Executive) : option Executive :=
  let installed :=
    if isCreation (m_t e) then
      match m_ext e with
      | None => None
      | Some x =>
          if bool_decide (m_newAddress e ∈ suicides (sub x)) then Some e
          else Some (set_s (update_account (Account_setCode (m_out e))
                              (m_newAddress e) (m_s e)) e)
      end
    else Some e in
  match installed with
  | None => None
  | Some e =>
      let e := set_s (addBalance (m_s e) (m_sender e)
                        (U256.mul (m_endGas e) (gasPrice (m_t e)))) e in
      let e := set_s (addBalance (m_s e) (coinbaseAddress (m_currentBlock (m_s e)))
                        (feesEarned e)) e in
      match m_ext e with
      | Some x => Some (set_s (kill_all (suicides (sub x)) (m_s e)) e)
      | None => Some e
      end
  end.

(** The self-destruct set [finalize] walks over: that of the adapter, when
    there is one. *)
Definition doomed (e : Executive) : gset Z :=
  match m_ext e with
  | Some x => suicides (sub x)
  | None => ∅
  end.

(** The life cycle of one transaction: [setup], then [go], then
    [finalize]. *)
Inductive Outcome :=
| Rejected (err : SetupError)
| Undefined
| Finalized (e : Executive).

Definition execute (e : Executive) (_rlp : bytes) : Outcome :=
  match setup e _rlp with
  | (_, inl err) => Rejected err
  | (e, inr _) =>
      match go e with
      | Some (e, _) =>
          match finalize e with
          | Some e => Finalized e
          | None => Undefined
          end
      | None => Undefined
      end
  end.

End Executive.

(** ** Concrete collaborators and scenarios

    Instances of the collaborators on which the executive can be run: a
    flat intrinsic gas, no native contract unless stated, and an
    interpreter that returns at once with all its gas. *)

Module Scenario.

Definition idle_vm (s : State) (x : ExtVM) (g : Z) : VMRun :=
  {| run_signal := Returned []; run_gas := g; run_cache := m_cache s; run_sub := sub x |}.

(** Collaborators with intrinsic gas [i] for every payload, the native
    contracts [reg], decoding every byte string to [t], and driving the
    interpreter [vm]. *)
Definition world (i : Z) (reg : gmap Z PrecompiledAddress) (t : Transaction)
    (vm : State -> ExtVM -> Z -> VMRun) : Collaborators :=
  {| txGas := fun _ => i;
     precompiled := reg;
     c_createDataGas := 5;
     sha3 := fun b => foldr (fun x h => 31 * h + x + 1) 7 b;
     rlpList := fun a n => [a; n];
     Transaction_decode := fun _ => Some t;
     vm_go := vm |}.

(** Scenario 1 of the specification: sender [1] with balance 1000 and
    nonce 0 sends value 100 with gas limit 50 at gas price 2 to address
    [7], which has no code; the fee recipient is address [9]. *)
Definition alice : Address := 1.
Definition bob : Address := 7.
Definition miner : Address := 9.

Definition transfer : Transaction :=
  {| nonce := 0; value := 100; receiveAddress := Some bob; gasPrice := 2;
     gas := 50; data := []; sender := alice |}.

Definition ledger : State :=
  {| m_cache := {[ alice := mkAccount 1000 0 [] ∅ ]};
     st_gasUsed := 0;
     m_currentBlock := {| gasLimit := 1000000; coinbaseAddress := miner |} |}.

(** The scenario with no intrinsic gas and no native contract. *)
Definition plain : Collaborators := world 0 ∅ transfer idle_vm.

Definition fresh : Executive := Executive_new ledger 0.

(** A native contract at address [2] that asks 500 gas for any input. *)
Definition identity_contract : PrecompiledAddress :=
  {| pc_gas := fun _ => 500; pc_exec := fun d => d |}.

Definition natives : gmap Z PrecompiledAddress := {[ 2 := identity_contract ]}.

Definition with_natives : Collaborators := world 0 natives transfer idle_vm.

(** A ledger in which address [5] holds code and address [7] holds none. *)
Definition library : Address := 5.

Definition ledger_with_library : State :=
  {| m_cache := {[ alice := mkAccount 1000 0 [] ∅;
                   library := mkAccount 0 0 [96; 0; 243] ∅ ]};
     st_gasUsed := 0;
     m_currentBlock := {| gasLimit := 1000000; coinbaseAddress := miner |} |}.

(** Scenario 4 of the specification: a call into the contract at address
    [5] whose run ends in a fault after it has logged, earned a refund and
    marked itself for destruction. *)
Definition faulting_vm (s : State) (x : ExtVM) (g : Z) : VMRun :=
  {| run_signal := VMException;
     run_gas := 3;
     run_cache := m_cache s;
     run_sub := {| suicides := {[ myAddress x ]};
                   logs := [mkLogEntry (myAddress x) [] []];
                   refunds := 12 |} |}.

Definition call_library : Transaction :=
  {| nonce := 0; value := 0; receiveAddress := Some library; gasPrice := 2;
     gas := 50; data := []; sender := alice |}.

Definition faulting : Collaborators := world 0 ∅ call_library faulting_vm.

(** A call into the same contract that returns two bytes with 20 of its 50
    gas left and a refund counter of 40. *)
Definition refunding_vm (s : State) (x : ExtVM) (g : Z) : VMRun :=
  {| run_signal := Returned [1; 2];
     run_gas := 20;
     run_cache := m_cache s;
     run_sub := {| suicides := ∅; logs := []; refunds := 40 |} |}.

Definition refunding : Collaborators := world 0 ∅ call_library refunding_vm.

(** The executive after [setup] of the call into the contract. *)
Definition in_frame (X : Collaborators) : Executive :=
  fst (setup X (Executive_new ledger_with_library 0) []).

(** A creation by [alice] with endowment 10 whose initialisation code
    returns 30 bytes with 100 of its gas left: the deployment charge of
    [30 * 5] is not covered. *)
Definition deploy : Transaction :=
  {| nonce := 0; value := 10; receiveAddress := None; gasPrice := 2;
     gas := 400; data := [96; 30; 96; 0; 243]; sender := alice |}.

Definition bulky_vm (s : State) (x : ExtVM) (g : Z) : VMRun :=
  {| run_signal := Returned (repeat 0 30);
     run_gas := 100;
     run_cache := m_cache s;
     run_sub := sub x |}.

Definition deploying : Collaborators := world 0 ∅ deploy bulky_vm.

Definition in_creation : Executive := fst (setup deploying fresh []).

(** Two creations by [alice] at nonce 0, told apart by the raw bytes:
    [deploy] above, and one with another endowment and another payload. *)
Definition deploy_other : Transaction :=
  {| nonce := 0; value := 0; receiveAddress := None; gasPrice := 1;
     gas := 90; data := [0]; sender := alice |}.

Definition two_deploys : Collaborators :=
  {| txGas := fun _ => 0;
     precompiled := ∅;
     c_createDataGas := 5;
     sha3 := fun b => foldr (fun x h => 31 * h + x + 1) 7 b;
     rlpList := fun a n => [a; n];
     Transaction_decode :=
       fun r => match r with [] => Some deploy | _ => Some deploy_other end;
     vm_go := idle_vm |}.

(** A call that pays 100 to the contract at address [5], whose code sends
    40 of it back to the origin of the transaction and returns with 30 gas
    left. *)
Definition pay_library : Transaction :=
  {| nonce := 0; value := 100; receiveAddress := Some library; gasPrice := 2;
     gas := 50; data := []; sender := alice |}.

Definition rebating_vm (s : State) (x : ExtVM) (g : Z) : VMRun :=
  {| run_signal := Returned [];
     run_gas := 30;
     run_cache := m_cache (addBalance (subBalance s (myAddress x) 40) (origin x) 40);
     run_sub := sub x |}.

Definition rebating : Collaborators := world 0 ∅ pay_library rebating_vm.

(** Scenario 1 with an intrinsic gas of 10, and of 500, for every
    payload. *)
Definition taxed : Collaborators := world 10 ∅ transfer idle_vm.
Definition heavily_taxed : Collaborators := world 500 ∅ transfer idle_vm.

(** The same creation with initialisation code that returns three bytes
    with 100 gas left: the deployment charge of [3 * 5] is covered. *)
Definition compact_vm (s : State) (x : ExtVM) (g : Z) : VMRun :=
  {| run_signal := Returned [1; 2; 3];
     run_gas := 100;
     run_cache := m_cache s;
     run_sub := sub x |}.

Definition deploying_compact : Collaborators := world 0 ∅ deploy compact_vm.

(** The executive of that creation after [setup] and [go]. *)
Definition created : Executive :=
  match go deploying_compact (fst (setup deploying_compact fresh [])) with
  | Some (e, _) => e
  | None => fresh
  end.


(** The executive of the call that returns with a refund, after [setup]
    and [go]. *)
Definition after_call : Executive :=
  match go refunding (in_frame refunding) with
  | Some (e, _) => e
  | None => fresh
  end.


(** The same executive after [finalize]. *)
Definition settled : Executive :=
  match finalize after_call with
  | Some e => e
  | None => fresh
  end.


(** A creation by [alice] with an empty initialisation payload. *)
Definition deploy_nothing : Transaction :=
  {| nonce := 0; value := 10; receiveAddress := None; gasPrice := 2;
     gas := 400; data := []; sender := alice |}.

Definition deploying_nothing : Collaborators := world 0 ∅ deploy_nothing idle_vm.

(** An address above [2^32] whose low 32 bits are those of the native
    contract at [2]. *)
Definition shadow : Address := 2 ^ 32 + 2.


(** A payment of 100 to the native contract at address [2], with one byte
    of payload and a gas limit of 600, under an intrinsic gas of 10. *)
Definition pay_native_enough : Transaction :=
  {| nonce := 0; value := 100; receiveAddress := Some 2; gasPrice := 1;
     gas := 600; data := [4]; sender := alice |}.

Definition native_taxed : Collaborators := world 10 natives pay_native_enough idle_vm.


(** The call into the contract at [5] with an interpreter that stops on
    the step limit with 17 gas left, and with one that dies of an
    unexpected exception after the contract marked itself for
    destruction. *)
Definition stepping_vm (s : State) (x : ExtVM) (g : Z) : VMRun :=
  {| run_signal := StepsDone; run_gas := 17; run_cache := m_cache s;
     run_sub := sub x |}.

Definition stepping : Collaborators := world 0 ∅ call_library stepping_vm.

Definition crashing_vm (s : State) (x : ExtVM) (g : Z) : VMRun :=
  {| run_signal := Exception; run_gas := 3; run_cache := m_cache s;
     run_sub := {| suicides := {[ myAddress x ]}; logs := []; refunds := 0 |} |}.

Definition crashing : Collaborators := world 0 ∅ call_library crashing_vm.

(** The adapter [setup] builds for the call into the contract at [5]. *)
Definition library_frame : ExtVM :=
  mkExtVM library alice alice 0 2 [] [96; 0; 243] 0 SubState_empty.


(** The payment to the native contract after [setup], and after
    [finalize]. *)
Definition paid_native : Executive := fst (setup native_taxed fresh []).

Definition paid_native_settled : Executive :=
  match finalize paid_native with
  | Some e => e
  | None => fresh
  end.









End Scenario.

(** * Properties *)

(** ** Arithmetic modulo [2^256] *)

Module U256Facts.
Import U256.

Lemma modulus_pos : 0 < modulus.
Proof. unfold modulus. apply Z.pow_pos_nonneg; lia. Qed.

Lemma wrap_range x : in_range (wrap x).
Proof. unfold in_range, wrap. apply Z.mod_pos_bound, modulus_pos. Qed.

Lemma wrap_small x : in_range x -> wrap x = x.
Proof. unfold in_range, wrap. intros H. now apply Z.mod_small. Qed.


Lemma add_range a b : in_range (add a b).
Proof. apply wrap_range. Qed.


Lemma mul_range a b : in_range (mul a b).
Proof. apply wrap_range. Qed.

Lemma sub_exact a b : in_range a -> 0 <= b <= a -> sub a b = a - b.
Proof. unfold in_range. intros Ha Hb. apply wrap_small. unfold in_range. lia. Qed.

Lemma add_exact a b : 0 <= a -> 0 <= b -> a + b < modulus -> add a b = a + b.
Proof. intros Ha Hb Hab. apply wrap_small. unfold in_range. lia. Qed.


End U256Facts.

(** ** The ledger state *)

Section StateFacts.

Implicit Types (s : State) (a b : Z) (f : Account -> Account).

Lemma account_update_eq f a s : account (update_account f a s) a = f (account s a).
Proof. unfold account, update_account. simpl. now rewrite lookup_insert_eq. Qed.

Lemma account_update_ne f a b s :
  a <> b -> account (update_account f a s) b = account s b.
Proof.
  intros Hab. unfold account, update_account. simpl.
  now rewrite lookup_insert_ne.
Qed.

Lemma lookup_update_ne f a b s :
  a <> b -> m_cache (update_account f a s) !! b = m_cache s !! b.
Proof. intros Hab. unfold update_account. simpl. now rewrite lookup_insert_ne. Qed.

Lemma lookup_update_eq f a s :
  m_cache (update_account f a s) !! a = Some (f (account s a)).
Proof. unfold update_account. simpl. now rewrite lookup_insert_eq. Qed.

Lemma balance_addBalance_eq s a v :
  balance (addBalance s a v) a = U256.wrap (balance s a + v).
Proof. unfold balance, addBalance. now rewrite account_update_eq. Qed.

Lemma balance_addBalance_ne s a b v :
  a <> b -> balance (addBalance s a v) b = balance s b.
Proof. intros H. unfold balance, addBalance. now rewrite account_update_ne. Qed.

Lemma account_default_wf : wf_Account Account_default.
Proof. split; simpl; pose proof U256Facts.modulus_pos; unfold U256.in_range; lia. Qed.

Lemma wf_account s a : wf_State s -> wf_Account (account s a).
Proof.
  intros [Hc _]. unfold account.
  destruct (m_cache s !! a) as [acc|] eqn:E; simpl.
  - exact (Hc a acc E).
  - apply account_default_wf.
Qed.

Lemma balance_range s a : wf_State s -> U256.in_range (balance s a).
Proof. intros H. apply (wf_account s a H). Qed.

Lemma nonce_range s a : wf_State s -> U256.in_range (transactionsFrom s a).
Proof. intros H. apply (wf_account s a H). Qed.

(** What the loop over the self-destruct set leaves in the cache. *)
Lemma lookup_foldr_kill (l : list Z) s a :
  m_cache (foldr kill s l) !! a = if bool_decide (a ∈ l) then None else m_cache s !! a.
Proof.
  induction l as [|k l IH]; cbn [foldr].
  - rewrite bool_decide_eq_false_2; [reflexivity | apply not_elem_of_nil].
  - unfold kill at 1. cbn [m_cache with_cache].
    destruct (decide (k = a)) as [Heq|Hne].
    + subst k. rewrite lookup_delete_eq.
      rewrite bool_decide_eq_true_2; [reflexivity | apply list_elem_of_here].
    + rewrite lookup_delete_ne by exact Hne. rewrite IH.
      destruct (decide (a ∈ l)) as [Hin|Hout].
      * rewrite !bool_decide_eq_true_2; [reflexivity | | exact Hin].
        now apply list_elem_of_further.
      * rewrite !bool_decide_eq_false_2; [reflexivity | | exact Hout].
        intros H. apply elem_of_cons in H as [H|H]; [now apply Hne | now apply Hout].
Qed.

Lemma lookup_kill_all (dead : gset Z) s a :
  m_cache (kill_all dead s) !! a = if bool_decide (a ∈ dead) then None else m_cache s !! a.
Proof.
  unfold kill_all. rewrite lookup_foldr_kill.
  destruct (decide (a ∈ dead)) as [Hin|Hout].
  - rewrite !bool_decide_eq_true_2; [reflexivity | exact Hin |].
    now apply elem_of_elements.
  - rewrite !bool_decide_eq_false_2; [reflexivity | exact Hout |].
    intros H. apply Hout. now apply elem_of_elements.
Qed.

End StateFacts.

(** Well-formedness of a concrete ledger is decided by evaluation. *)
Lemma wf_State_check (s : State) :
  forallb (fun kv => let acc := snd kv in
             (0 <=? acc_balance acc) && (acc_balance acc <? U256.modulus) &&
             (0 <=? acc_nonce acc) && (acc_nonce acc <? U256.modulus))
          (map_to_list (m_cache s)) &&
  (0 <=? st_gasUsed s) && (st_gasUsed s <? U256.modulus) &&
  (0 <=? gasLimit (m_currentBlock s)) && (gasLimit (m_currentBlock s) <? U256.modulus)
  = true ->
  wf_State s.
Proof.
  intros H.
  apply andb_prop in H as [H H4]. apply andb_prop in H as [H H3].
  apply andb_prop in H as [H H2]. apply andb_prop in H as [H H1].
  unfold wf_State, U256.in_range. split; [|lia].
  intros a acc Hlk.
  rewrite forallb_forall in H.
  apply elem_of_map_to_list, list_elem_of_In in Hlk.
  specialize (H _ Hlk). simpl in H.
  apply andb_prop in H as [H H8]. apply andb_prop in H as [H H7].
  apply andb_prop in H as [H5 H6].
  unfold wf_Account, U256.in_range. lia.
Qed.

Lemma wf_Transaction_check (t : Transaction) :
  (0 <=? nonce t) && (nonce t <? U256.modulus) &&
  (0 <=? value t) && (value t <? U256.modulus) &&
  (0 <=? gasPrice t) && (gasPrice t <? U256.modulus) &&
  (0 <=? gas t) && (gas t <? U256.modulus) = true ->
  wf_Transaction t.
Proof.
  intros H. repeat (apply andb_prop in H as [H ?]).
  unfold wf_Transaction, U256.in_range. lia.
Qed.

(** ** Setup: validation and upfront charge *)

Section SetupFacts.

Variable X : Collaborators.

Lemma setup_unfold e _rlp t :
  Transaction_decode X _rlp = Some t ->
  setup X e _rlp =
    let e0 := set_sender (sender t) (set_t t e) in
    match validate X (m_s e) t with
    | Some err => (e0, inl err)
    | None => let '(e2, r) := dispatch X (charge e0) in (e2, inr r)
    end.
Proof. intros Hd. unfold setup. rewrite Hd. reflexivity. Qed.

Lemma validate_pass s t :
  nonce t = transactionsFrom s (sender t) ->
  txGas X (data t) <= gas t ->
  upfront_cost t <= balance s (sender t) ->
  U256.add (gasUsed s) (gas t) <= gasLimit (m_currentBlock s) ->
  validate X s t = None.
Proof.
  intros Hn Hg Hc Hb. unfold validate.
  rewrite (proj2 (Z.eqb_eq _ _) Hn). cbn [negb].
  rewrite (proj2 (Z.ltb_ge _ _) Hg), (proj2 (Z.ltb_ge _ _) Hc).
  rewrite Z.gtb_ltb, (proj2 (Z.ltb_ge _ _) Hb). reflexivity.
Qed.

(** The cost is a [u256]: a product [gas * gasPrice] of [2^256] wraps to
    zero. *)
Lemma upfront_cost_wraps :
  upfront_cost (mkTransaction 0 0 (Some 7) (2 ^ 247) 512 [] 1) = 0.
Proof. vm_compute. reflexivity. Qed.

(** The ledger state after [noteSending] and [subBalance]. *)
Lemma charge_state e :
  let a := m_sender e in
  let s := m_s e in
  let cost := upfront_cost (m_t e) in
  transactionsFrom (m_s (charge e)) a = U256.add (transactionsFrom s a) 1 /\
  balance (m_s (charge e)) a = U256.sub (balance s a) cost /\
  code (m_s (charge e)) a = code s a /\
  (forall b, b <> a -> m_cache (m_s (charge e)) !! b = m_cache s !! b) /\
  m_currentBlock (m_s (charge e)) = m_currentBlock s /\
  st_gasUsed (m_s (charge e)) = st_gasUsed s.
Proof.
  cbn zeta. unfold charge, subBalance, noteSending, transactionsFrom, balance, code.
  cbn [m_s set_s m_sender m_t].
  rewrite !account_update_eq. cbn.
  repeat apply conj; try reflexivity.
  intros b Hb.
  now rewrite !lookup_insert_ne by (intros Heq; apply Hb; symmetry; exact Heq).
Qed.


End SetupFacts.



(** ** Call dispatch *)

Section CallFacts.

Variable X : Collaborators.

Lemma code_addBalance s a b v : code (addBalance s a v) b = code s b.
Proof.
  unfold code, addBalance. destruct (decide (a = b)) as [->|Hne].
  - now rewrite account_update_eq.
  - now rewrite account_update_ne.
Qed.

Lemma addressHasCode_addBalance s a b v :
  addressHasCode (addBalance s a v) b = addressHasCode s b.
Proof. unfold addressHasCode. now rewrite code_addBalance. Qed.

Lemma high_address_bits_spec n :
  0 <= n -> Z.testbit high_address_bits n = (32 <=? n) && (n <? 160).
Proof.
  intros Hn. unfold high_address_bits, h160_modulus.
  rewrite Z.lxor_spec.
  change (2 ^ 160 - 1) with (Z.ones 160).
  change 0xffffffff with (Z.ones 32).
  destruct (Z.ltb_spec n 160), (Z.leb_spec 32 n).
  - rewrite Z.ones_spec_low, Z.ones_spec_high by lia. reflexivity.
  - rewrite !Z.ones_spec_low by lia. reflexivity.
  - rewrite !Z.ones_spec_high by lia. reflexivity.
  - lia.
Qed.

(** An address below [2^32] passes the mask test and is looked up in the
    registry under its own value. *)
Lemma precompiled_find_low r p :
  0 <= r < 2 ^ 32 ->
  precompiled X !! r = Some p ->
  precompiled_find X r = Some (r, p).
Proof.
  intros Hr Hp. unfold precompiled_find.
  assert (Hland : Z.land r high_address_bits = 0).
  { apply Z.bits_inj'. intros n Hn.
    rewrite Z.land_spec, Z.bits_0, high_address_bits_spec by exact Hn.
    destruct (Z.leb_spec 32 n) as [Hge|Hlt]; cbn [andb].
    - destruct (Z.eq_dec r 0) as [->|Hr0]; [now rewrite Z.bits_0|].
      rewrite Z.bits_above_log2; [reflexivity|lia|].
      apply Z.log2_lt_pow2; [lia|].
      apply Z.lt_le_trans with (2 ^ 32); [lia|].
      apply Z.pow_le_mono_r; lia.
    - apply andb_false_r. }
  rewrite Hland. cbn [Z.eqb].
  rewrite Z.mod_small by lia. now rewrite Hp.
Qed.

(** C2.  [call] credits the value to the receiver before it looks at the
    registry of native contracts or at the code: in every branch the ledger
    state it leaves is the credited one, and the branch is chosen on that
    state.  For a registered native contract whose required gas exceeds the
    supplied gas, [call] returns [false] with end-gas zero, runs no native
    contract, and the receiver keeps the credit. *)
Theorem call_credits_before_checks (e : Executive)
    (r c sd : Address) (v gp : Z) (d : bytes) (g : Z) (o : Address) :
  let res := call X e r c sd v gp d g o in
  let credited := addBalance (m_s e) r v in
  m_s (fst res) = credited /\
  balance (m_s (fst res)) r = U256.wrap (balance (m_s e) r + v) /\
  (is_Some (m_vm (fst res)) <->
     is_Some (m_vm e) \/
     (precompiled_find X r = None /\ addressHasCode credited c = true)) /\
  (forall p, 0 <= r < 2 ^ 32 -> precompiled X !! r = Some p -> g < pc_gas p d ->
     snd res = false /\
     m_endGas (fst res) = 0 /\
     native_runs (fst res) = native_runs e /\
     m_vm (fst res) = m_vm e /\
     balance (m_s (fst res)) r = U256.wrap (balance (m_s e) r + v)) /\
  (forall p, 0 <= r < 2 ^ 32 -> precompiled X !! r = Some p -> pc_gas p d <= g ->
     snd res = true /\
     m_endGas (fst res) = U256.wrap (g - pc_gas p d) /\
     native_runs (fst res) = (r, d) :: native_runs e).
Proof.
  cbn zeta.
  assert (Hs : m_s (fst (call X e r c sd v gp d g o)) = addBalance (m_s e) r v).
  { unfold call. cbn [m_s set_s set_isCreation].
    destruct (precompiled_find X r) as [[k p]|].
    - destruct (g <? pc_gas p d); reflexivity.
    - destruct (addressHasCode _ c); reflexivity. }
  refine (conj _ (conj _ (conj _ (conj _ _)))).
  - exact Hs.
  - rewrite Hs. apply balance_addBalance_eq.
  - unfold call. cbn [m_s set_s set_isCreation].
    destruct (precompiled_find X r) as [[k p]|].
    + destruct (g <? pc_gas p d); cbn; split; intros H; try (now left).
      * destruct H as [H|[H _]]; [exact H|discriminate].
      * destruct H as [H|[H _]]; [exact H|discriminate].
    + destruct (addressHasCode _ c) eqn:Hc; cbn; split; intros H.
      * right. now split.
      * eexists. reflexivity.
      * now left.
      * destruct H as [H|[_ H]]; [exact H|discriminate].
  - intros p Hr Hp Hg. rewrite Hs.
    unfold call. rewrite (precompiled_find_low r p Hr Hp).
    rewrite (proj2 (Z.ltb_lt _ _) Hg). cbn.
    repeat apply conj; try reflexivity. apply balance_addBalance_eq.
  - intros p Hr Hp Hg.
    unfold call. rewrite (precompiled_find_low r p Hr Hp).
    rewrite (proj2 (Z.ltb_ge _ _) Hg). cbn.
    repeat apply conj; reflexivity.
Qed.

(** C10.  When the receive address is no native contract and the code
    address has code, the frame [call] builds runs the code stored at the
    receive address: the adapter's code is [code(_receiveAddress)], whatever
    is stored at [_codeAddress]; with no code at the receive address the
    frame runs empty code. *)
Theorem call_runs_receiver_code (e : Executive)
    (r c sd : Address) (v gp : Z) (d : bytes) (g : Z) (o : Address) :
  precompiled_find X r = None ->
  addressHasCode (m_s e) c = true ->
  let res := call X e r c sd v gp d g o in
  snd res = false /\
  m_vm (fst res) = Some (mkVM g) /\
  m_ext (fst res) =
    Some (mkExtVM r sd o v gp d (code (m_s e) r) (m_depth e) SubState_empty) /\
  (code (m_s e) r = [] ->
     exists x, m_ext (fst res) = Some x /\ ext_code x = [] /\ myAddress x = r).
Proof.
  intros Hp Hc. cbn zeta. unfold call. rewrite Hp.
  cbn [m_s set_s set_isCreation].
  rewrite addressHasCode_addBalance, Hc. cbn.
  rewrite code_addBalance.
  repeat apply conj; try reflexivity.
  intros Hr. eexists. split; [reflexivity|]. cbn. now split.
Qed.

End CallFacts.

(** C2, on a call of 50 gas to the native contract at address [2], which
    asks 500. *)
Lemma call_credits_before_checks_witness :
  snd (call Scenario.with_natives Scenario.fresh 2 2 Scenario.alice 100 2 [] 50
         Scenario.alice) = false /\
  m_endGas (fst (call Scenario.with_natives Scenario.fresh 2 2 Scenario.alice
                   100 2 [] 50 Scenario.alice)) = 0 /\
  native_runs (fst (call Scenario.with_natives Scenario.fresh 2 2 Scenario.alice
                      100 2 [] 50 Scenario.alice)) = [] /\
  balance (m_s (fst (call Scenario.with_natives Scenario.fresh 2 2 Scenario.alice
                       100 2 [] 50 Scenario.alice))) 2 = 100.
Proof.
  pose proof (call_credits_before_checks Scenario.with_natives Scenario.fresh
                2 2 Scenario.alice 100 2 [] 50 Scenario.alice) as H.
  cbn zeta in H. destruct H as (_ & _ & _ & H & _).
  destruct (H Scenario.identity_contract) as (H1 & H2 & H3 & _ & H5).
  - vm_compute. split; [discriminate | reflexivity].
  - reflexivity.
  - vm_compute. reflexivity.
  - exact (conj H1 (conj H2 (conj H3 H5))).
Defined.

(** C10, on a call whose code address [5] holds code while the receive
    address [7] holds none: the frame is built over empty code. *)
Lemma call_runs_receiver_code_witness :
  m_ext (fst (call Scenario.plain (Executive_new Scenario.ledger_with_library 0)
                Scenario.bob Scenario.library Scenario.alice 0 2 [] 50
                Scenario.alice))
  = Some (mkExtVM Scenario.bob Scenario.alice Scenario.alice 0 2 [] [] 0
            SubState_empty).
Proof.
  pose proof (call_runs_receiver_code Scenario.plain
                (Executive_new Scenario.ledger_with_library 0)
                Scenario.bob Scenario.library Scenario.alice 0 2 [] 50
                Scenario.alice eq_refl eq_refl) as H.
  cbn zeta in H. destruct H as (_ & _ & H & _). exact H.
Defined.

(** ** The execution drive *)

Section GoFacts.

Variable X : Collaborators.

Lemma go_unfold e vm x :
  m_vm e = Some vm -> m_ext e = Some x ->
  go X e =
    let r := vm_go X (m_s e) x (vm_gas vm) in
    let x' := with_sub (run_sub r) x in
    let e' := set_ext (Some x')
                (set_vm (Some (mkVM (run_gas r))) (set_s (with_cache (run_cache r) (m_s e)) e)) in
    match run_signal r with
    | Returned out => Some (conclude X e' out (run_gas r) x', true)
    | StepsDone => Some (e', false)
    | VMException =>
        Some (set_excepted true (set_ext (Some (revert x')) (set_endGas 0 e')), true)
    | Exception => Some (e', true)
    | StdException => Some (e', true)
    end.
Proof. intros Hvm Hext. unfold go. rewrite Hvm, Hext. reflexivity. Qed.

(** [go] without an interpreter instance is a no-op. *)
Lemma go_idle e : m_vm e = None -> go X e = Some (e, true).
Proof. intros H. unfold go. now rewrite H. Qed.

(** [conclude] touches neither the ledger state nor the adapter. *)
Lemma conclude_frame e out g x :
  m_s (conclude X e out g x) = m_s e /\
  m_ext (conclude X e out g x) = m_ext e /\
  m_t (conclude X e out g x) = m_t e /\
  m_sender (conclude X e out g x) = m_sender e /\
  m_newAddress (conclude X e out g x) = m_newAddress e /\
  m_isCreation (conclude X e out g x) = m_isCreation e.
Proof.
  unfold conclude. cbn [m_isCreation set_logs set_endGas set_out m_out m_endGas m_t].
  destruct (m_isCreation e) eqn:Hc; [|rewrite <- Hc; repeat apply conj; reflexivity].
  rewrite <- Hc. destruct (_ <=? _); repeat apply conj; reflexivity.
Qed.

(** The end-gas [conclude] computes. *)
Lemma conclude_endGas e out g x :
  let refund := Z.min (U256.sub (gas (m_t e)) g / 2) (refunds (sub x)) in
  let deposit := U256.mul (size out) (c_createDataGas X) in
  m_endGas (conclude X e out g x) =
    if m_isCreation e && (deposit <=? U256.add g refund)
    then U256.sub (U256.add g refund) deposit
    else U256.add g refund.
Proof.
  cbn zeta. unfold conclude.
  cbn [m_isCreation set_logs set_endGas set_out m_out m_endGas m_t].
  destruct (m_isCreation e); [|reflexivity]. cbn [andb].
  destruct (_ <=? _); reflexivity.
Qed.

(** C6.  When the interpreter raises a [VMException], [go] sets end-gas to
    zero, reverts the adapter (its logs, refund counter and self-destruct
    set are discarded), sets the excepted flag, and returns [true] without
    raising; the output and the logs of the executive stay as they were,
    and [finalize] then goes through. *)
Theorem go_recovers_from_vm_fault (e : Executive) (vm : VM) (x : ExtVM) :
  m_vm e = Some vm ->
  m_ext e = Some x ->
  run_signal (vm_go X (m_s e) x (vm_gas vm)) = VMException ->
  exists e',
    go X e = Some (e', true) /\
    m_endGas e' = 0 /\
    m_excepted e' = true /\
    m_ext e' = Some (revert (with_sub (run_sub (vm_go X (m_s e) x (vm_gas vm))) x)) /\
    (exists x', m_ext e' = Some x' /\
       logs (sub x') = [] /\ refunds (sub x') = 0 /\ suicides (sub x') = ∅) /\
    m_logs e' = m_logs e /\
    m_out e' = m_out e /\
    is_Some (finalize e').
Proof.
  intros Hvm Hext Hsig.
  rewrite (go_unfold e vm x Hvm Hext). cbn zeta. rewrite Hsig.
  eexists. split; [reflexivity|].
  cbn [m_endGas m_excepted m_ext m_logs m_out set_excepted set_ext set_endGas
       set_vm set_s].
  repeat apply conj; try reflexivity.
  - eexists. split; [reflexivity|]. cbn. repeat split.
  - unfold finalize.
    cbn [m_t m_ext m_newAddress set_excepted set_ext set_endGas set_vm set_s].
    destruct (isCreation (m_t e)).
    + destruct (bool_decide _); eexists; reflexivity.
    + eexists. reflexivity.
Qed.


End GoFacts.

(** C6, on scenario 4: the frame faults after logging, earning a refund
    and marking itself for destruction. *)
Lemma go_recovers_from_vm_fault_witness :
  exists e',
    go Scenario.faulting (Scenario.in_frame Scenario.faulting) = Some (e', true) /\
    m_endGas e' = 0 /\ m_excepted e' = true /\
    (exists x', m_ext e' = Some x' /\
       logs (sub x') = [] /\ refunds (sub x') = 0 /\ suicides (sub x') = ∅).
Proof.
  destruct (go_recovers_from_vm_fault Scenario.faulting
              (Scenario.in_frame Scenario.faulting)
              (mkVM 50)
              (mkExtVM Scenario.library Scenario.alice Scenario.alice 0 2 []
                 [96; 0; 243] 0 SubState_empty)
              eq_refl eq_refl eq_refl)
    as (e' & Hgo & Hgas & Hexc & _ & Hsub & _).
  exists e'. exact (conj Hgo (conj Hgas (conj Hexc Hsub))).
Defined.



(** ** Finalization *)

Section FinalizeFacts.

Lemma kill_all_empty s : kill_all ∅ s = s.
Proof. unfold kill_all. rewrite elements_empty. reflexivity. Qed.

(** The ledger state [finalize] leaves, step by step. *)
Lemma finalize_unfold e :
  (isCreation (m_t e) = true -> is_Some (m_ext e)) ->
  let s1 := if isCreation (m_t e) && negb (bool_decide (m_newAddress e ∈ doomed e))
            then update_account (Account_setCode (m_out e)) (m_newAddress e) (m_s e)
            else m_s e in
  let s2 := addBalance s1 (m_sender e) (U256.mul (m_endGas e) (gasPrice (m_t e))) in
  let s3 := addBalance s2 (coinbaseAddress (m_currentBlock (m_s e))) (feesEarned e) in
  finalize e = Some (set_s (kill_all (doomed e) s3) e).
Proof.
  intros Hinv. cbn zeta. unfold finalize, doomed.
  destruct (isCreation (m_t e)) eqn:Hc; cbn [andb].
  - destruct (Hinv eq_refl) as [x Hx]. rewrite Hx.
    destruct (bool_decide (m_newAddress e ∈ suicides (sub x))); cbn [negb];
      cbn [m_ext m_s m_t m_sender m_endGas set_s]; rewrite ?Hx; reflexivity.
  - cbn [m_ext m_s m_t m_sender m_endGas set_s].
    destruct (m_ext e) as [x|]; [reflexivity|].
    rewrite kill_all_empty. reflexivity.
Qed.

Lemma account_setCode_ne c n s a :
  a <> n -> account (update_account (Account_setCode c) n s) a = account s a.
Proof. intros H. apply account_update_ne. intros Heq. now apply H. Qed.

Lemma balance_setCode c n s a :
  balance (update_account (Account_setCode c) n s) a = balance s a.
Proof.
  unfold balance. destruct (decide (n = a)) as [->|Hne].
  - now rewrite account_update_eq.
  - now rewrite account_update_ne.
Qed.

Lemma nonce_setCode c n s a :
  transactionsFrom (update_account (Account_setCode c) n s) a = transactionsFrom s a.
Proof.
  unfold transactionsFrom. destruct (decide (n = a)) as [->|Hne].
  - now rewrite account_update_eq.
  - now rewrite account_update_ne.
Qed.

Lemma nonce_addBalance s a b v :
  transactionsFrom (addBalance s a v) b = transactionsFrom s b.
Proof.
  unfold transactionsFrom, addBalance. destruct (decide (a = b)) as [->|Hne].
  - now rewrite account_update_eq.
  - now rewrite account_update_ne.
Qed.

Lemma account_kill_all_out dead s a : a ∉ dead -> account (kill_all dead s) a = account s a.
Proof.
  intros H. unfold account. rewrite lookup_kill_all.
  now rewrite bool_decide_eq_false_2.
Qed.

(** Crediting [v] to [a] as seen from any address [b]. *)
Lemma balance_addBalance s a b v :
  balance (addBalance s a v) b =
    if bool_decide (b = a) then U256.wrap (balance s b + v) else balance s b.
Proof.
  case_bool_decide as H.
  - subst b. apply balance_addBalance_eq.
  - apply balance_addBalance_ne. intros Heq. now apply H.
Qed.

(** The balance of a surviving account after [finalize]. *)
Lemma finalize_balance e e' a :
  finalize e = Some e' ->
  (isCreation (m_t e) = true -> is_Some (m_ext e)) ->
  a ∉ doomed e ->
  balance (m_s e') a =
    let b1 := if bool_decide (a = m_sender e)
              then U256.wrap (balance (m_s e) a
                              + U256.mul (m_endGas e) (gasPrice (m_t e)))
              else balance (m_s e) a in
    if bool_decide (a = coinbaseAddress (m_currentBlock (m_s e)))
    then U256.wrap (b1 + feesEarned e) else b1.
Proof.
  intros Hfin Hinv Ha. rewrite (finalize_unfold e Hinv) in Hfin.
  cbn zeta in Hfin. injection Hfin as <-. cbn [m_s set_s]. cbn zeta.
  unfold balance at 1. rewrite account_kill_all_out by exact Ha.
  fold (balance (addBalance
                   (addBalance
                      (if isCreation (m_t e) && negb (bool_decide (m_newAddress e ∈ doomed e))
                       then update_account (Account_setCode (m_out e)) (m_newAddress e) (m_s e)
                       else m_s e)
                      (m_sender e) (U256.mul (m_endGas e) (gasPrice (m_t e))))
                   (coinbaseAddress (m_currentBlock (m_s e))) (feesEarned e)) a).
  rewrite !balance_addBalance.
  destruct (isCreation (m_t e) && negb (bool_decide (m_newAddress e ∈ doomed e)));
    rewrite ?balance_setCode; reflexivity.
Qed.

(** The code of a surviving account after [finalize]. *)
Lemma finalize_code e e' a :
  finalize e = Some e' ->
  (isCreation (m_t e) = true -> is_Some (m_ext e)) ->
  a ∉ doomed e ->
  code (m_s e') a =
    if isCreation (m_t e) && bool_decide (a = m_newAddress e)
    then m_out e else code (m_s e) a.
Proof.
  intros Hfin Hinv Ha. rewrite (finalize_unfold e Hinv) in Hfin.
  cbn zeta in Hfin. injection Hfin as <-. cbn [m_s set_s].
  unfold code at 1. rewrite account_kill_all_out by exact Ha.
  match goal with |- acc_code (account ?s a) = _ => change (code s a = 
    if isCreation (m_t e) && bool_decide (a = m_newAddress e)
    then m_out e else code (m_s e) a) end.
  rewrite !code_addBalance.
  destruct (isCreation (m_t e)); cbn [andb]; [|reflexivity].
  destruct (decide (a = m_newAddress e)) as [Heq|Hne].
  - subst a. rewrite bool_decide_eq_false_2 by exact Ha. cbn [negb].
    rewrite bool_decide_eq_true_2 by reflexivity.
    unfold code. now rewrite account_update_eq.
  - rewrite (bool_decide_eq_false_2 (a = m_newAddress e)) by exact Hne.
    destruct (negb _); [|reflexivity].
    unfold code. now rewrite account_setCode_ne.
Qed.

(** The nonce of a surviving account after [finalize]. *)
Lemma finalize_nonce e e' a :
  finalize e = Some e' ->
  (isCreation (m_t e) = true -> is_Some (m_ext e)) ->
  a ∉ doomed e ->
  transactionsFrom (m_s e') a = transactionsFrom (m_s e) a.
Proof.
  intros Hfin Hinv Ha. rewrite (finalize_unfold e Hinv) in Hfin.
  cbn zeta in Hfin. injection Hfin as <-. cbn [m_s set_s].
  unfold transactionsFrom at 1. rewrite account_kill_all_out by exact Ha.
  match goal with |- acc_nonce (account ?s a) = _ =>
    change (transactionsFrom s a = transactionsFrom (m_s e) a) end.
  rewrite !nonce_addBalance.
  destruct (_ && _); [apply nonce_setCode | reflexivity].
Qed.

Lemma finalize_doomed e e' a :
  finalize e = Some e' ->
  (isCreation (m_t e) = true -> is_Some (m_ext e)) ->
  a ∈ doomed e ->
  m_cache (m_s e') !! a = None.
Proof.
  intros Hfin Hinv Ha. rewrite (finalize_unfold e Hinv) in Hfin.
  cbn zeta in Hfin. injection Hfin as <-. cbn [m_s set_s].
  rewrite lookup_kill_all. now rewrite bool_decide_eq_true_2.
Qed.

Lemma finalize_fields e e' :
  finalize e = Some e' ->
  (isCreation (m_t e) = true -> is_Some (m_ext e)) ->
  m_endGas e' = m_endGas e /\ m_t e' = m_t e /\ m_out e' = m_out e /\
  m_excepted e' = m_excepted e /\ m_logs e' = m_logs e.
Proof.
  intros Hfin Hinv. rewrite (finalize_unfold e Hinv) in Hfin.
  cbn zeta in Hfin. injection Hfin as <-. repeat split.
Qed.

End FinalizeFacts.

Section Settlement.

Variable X : Collaborators.

(** C7.  [finalize] always returns (for a creation the adapter exists).
    It sets the code of the new address to the produced output exactly when
    the transaction is a creation and the new address is not in the
    self-destruct set; it credits the sender [endGas * gasPrice] and the
    block's fee recipient [(gas - endGas) * gasPrice]; and it removes every
    account of the self-destruct set, which then has balance zero, no
    code and no storage. *)
Theorem finalize_settles (e : Executive) :
  (isCreation (m_t e) = true -> is_Some (m_ext e)) ->
  exists e',
    finalize e = Some e' /\
    (forall a, a ∉ doomed e ->
       code (m_s e') a =
         if isCreation (m_t e) && bool_decide (a = m_newAddress e)
         then m_out e else code (m_s e) a) /\
    (forall a, a ∉ doomed e ->
       balance (m_s e') a =
         let b1 := if bool_decide (a = m_sender e)
                   then U256.wrap (balance (m_s e) a
                                   + U256.mul (m_endGas e) (gasPrice (m_t e)))
                   else balance (m_s e) a in
         if bool_decide (a = coinbaseAddress (m_currentBlock (m_s e)))
         then U256.wrap (b1 + U256.mul (U256.sub (gas (m_t e)) (m_endGas e))
                                   (gasPrice (m_t e)))
         else b1) /\
    (forall a, a ∉ doomed e ->
       transactionsFrom (m_s e') a = transactionsFrom (m_s e) a) /\
    (forall a, a ∈ doomed e ->
       m_cache (m_s e') !! a = None /\
       balance (m_s e') a = 0 /\
       code (m_s e') a = [] /\
       acc_storage (account (m_s e') a) = ∅).
Proof.
  intros Hinv.
  destruct (finalize e) as [e'|] eqn:Hfin.
  2:{ rewrite (finalize_unfold e Hinv) in Hfin. discriminate. }
  exists e'. split; [reflexivity|].
  refine (conj _ (conj _ (conj _ _))).
  - intros a Ha. exact (finalize_code e e' a Hfin Hinv Ha).
  - intros a Ha. exact (finalize_balance e e' a Hfin Hinv Ha).
  - intros a Ha. exact (finalize_nonce e e' a Hfin Hinv Ha).
  - intros a Ha. pose proof (finalize_doomed e e' a Hfin Hinv Ha) as Hnone.
    split; [exact Hnone|].
    unfold balance, code, account. rewrite Hnone. cbn. repeat split.
Qed.

(** C8.  When the interpreter returns normally in a creation frame, the
    deployment charge [size(out) * c_createDataGas] is taken off the
    end-gas, after the refund has been added, if the end-gas covers it;
    otherwise the end-gas stays and the output is dropped.  [go] leaves the
    ledger state as the interpreter left it, so the created account is not
    taken away; after [finalize] the new address has empty code, and its
    account is present unless it was marked for self-destruction. *)
Theorem go_charges_deployment (e : Executive) (vm : VM) (x : ExtVM) (out : bytes) :
  m_vm e = Some vm ->
  m_ext e = Some x ->
  m_isCreation e = true ->
  isCreation (m_t e) = true ->
  let r := vm_go X (m_s e) x (vm_gas vm) in
  run_signal r = Returned out ->
  let refund := Z.min (U256.sub (gas (m_t e)) (run_gas r) / 2) (refunds (run_sub r)) in
  let afterRefund := U256.add (run_gas r) refund in
  let deposit := U256.mul (size out) (c_createDataGas X) in
  exists e',
    go X e = Some (e', true) /\
    m_s e' = with_cache (run_cache r) (m_s e) /\
    (0 <= c_createDataGas X -> size out * c_createDataGas X < U256.modulus ->
       deposit = size out * c_createDataGas X) /\
    (deposit <= afterRefund ->
       m_endGas e' = afterRefund - deposit /\ m_out e' = out) /\
    (afterRefund < deposit ->
       m_endGas e' = afterRefund /\
       m_out e' = [] /\
       exists e'',
         finalize e' = Some e'' /\
         code (m_s e'') (m_newAddress e) = [] /\
         (m_newAddress e ∉ suicides (run_sub r) ->
            is_Some (m_cache (m_s e'') !! m_newAddress e))).
Proof.
  intros Hvm Hext Hcre Hcre'. cbn zeta. intros Hsig.
  rewrite (go_unfold X e vm x Hvm Hext). cbn zeta. rewrite Hsig.
  eexists. split; [reflexivity|].
  set (r := vm_go X (m_s e) x (vm_gas vm)) in *.
  set (x' := with_sub (run_sub r) x).
  set (e0 := set_ext (Some x') (set_vm (Some (mkVM (run_gas r))) (set_s (with_cache (run_cache r) (m_s e)) e))).
  pose proof (conclude_frame X e0 out (run_gas r) x')
    as (Hs & Hx & Ht & Hsd & Hna & _).
  pose proof (conclude_endGas X e0 out (run_gas r) x') as Hend.
  cbn zeta in Hend.
  change (m_isCreation e0) with (m_isCreation e) in Hend. rewrite Hcre in Hend.
  cbn [andb] in Hend.
  change (m_t e0) with (m_t e) in *.
  change (sub x') with (run_sub r) in Hend.
  change (m_s e0) with (with_cache (run_cache r) (m_s e)) in Hs.
  change (m_newAddress e0) with (m_newAddress e) in Hna.
  set (refund := Z.min (U256.sub (gas (m_t e)) (run_gas r) / 2) (refunds (run_sub r))) in *.
  set (afterRefund := U256.add (run_gas r) refund) in *.
  set (deposit := U256.mul (size out) (c_createDataGas X)) in *.
  pose proof (U256Facts.add_range (run_gas r) refund) as Har. fold afterRefund in Har.
  pose proof (U256Facts.mul_range (size out) (c_createDataGas X)) as Hdr. fold deposit in Hdr.
  assert (Hout : m_out (conclude X e0 out (run_gas r) x') =
                 if deposit <=? afterRefund then out else []).
  { unfold conclude.
    cbn [m_isCreation set_logs set_endGas set_out m_out m_endGas m_t].
    change (m_isCreation e0) with (m_isCreation e). rewrite Hcre.
    change (m_t e0) with (m_t e). change (sub x') with (run_sub r).
    fold refund. fold afterRefund. fold deposit.
    destruct (deposit <=? afterRefund); reflexivity. }
  refine (conj Hs (conj _ (conj _ _))).
  - intros Hc Hlt. unfold deposit. apply U256Facts.wrap_small.
    unfold U256.in_range, size in *. nia.
  - intros Hle. rewrite Hend, Hout, (proj2 (Z.leb_le _ _) Hle).
    split; [|reflexivity].
    apply U256Facts.sub_exact; [exact Har|]. unfold U256.in_range in Hdr. lia.
  - intros Hlt. rewrite Hend, Hout, (proj2 (Z.leb_gt _ _) Hlt).
    split; [reflexivity|]. split; [reflexivity|].
    set (e1 := conclude X e0 out (run_gas r) x') in *.
    assert (Hinv : isCreation (m_t e1) = true -> is_Some (m_ext e1)).
    { intros _. rewrite Hx. eexists. reflexivity. }
    assert (Hout1 : m_out e1 = []).
    { rewrite Hout. now rewrite (proj2 (Z.leb_gt _ _) Hlt). }
    assert (Hdoomed : doomed e1 = suicides (run_sub r)).
    { unfold doomed. rewrite Hx. reflexivity. }
    destruct (finalize e1) as [e''|] eqn:Hfin.
    2:{ rewrite (finalize_unfold e1 Hinv) in Hfin. discriminate. }
    exists e''. split; [reflexivity|].
    destruct (decide (m_newAddress e ∈ suicides (run_sub r))) as [Hin|Hnin].
    + split; [|intros Hc; contradiction].
      assert (Hnone : m_cache (m_s e'') !! m_newAddress e = None).
      { apply (finalize_doomed e1 e'' _ Hfin Hinv). now rewrite Hdoomed. }
      unfold code, account. now rewrite Hnone.
    + assert (Hnd : m_newAddress e ∉ doomed e1) by now rewrite Hdoomed.
      split.
      * rewrite (finalize_code e1 e'' _ Hfin Hinv Hnd).
        rewrite Ht, Hcre', Hna. cbn [andb].
        rewrite bool_decide_eq_true_2 by reflexivity. exact Hout1.
      * intros _.
        rewrite (finalize_unfold e1 Hinv) in Hfin. cbn zeta in Hfin.
        injection Hfin as <-. cbn [m_s set_s].
        rewrite lookup_kill_all, bool_decide_eq_false_2 by exact Hnd.
        rewrite Ht, Hcre', Hna.
        rewrite (bool_decide_eq_false_2 _ Hnd). cbn [andb negb].
        destruct (decide (coinbaseAddress (m_currentBlock (m_s e1)) = m_newAddress e))
          as [Hcb|Hcb].
        { rewrite Hcb. unfold addBalance at 1. rewrite lookup_update_eq. eexists; reflexivity. }
        unfold addBalance at 1. rewrite lookup_update_ne by exact Hcb.
        destruct (decide (m_sender e1 = m_newAddress e)) as [Hsn|Hsn].
        { rewrite Hsn. unfold addBalance at 1. rewrite lookup_update_eq. eexists; reflexivity. }
        unfold addBalance at 1. rewrite lookup_update_ne by exact Hsn.
        rewrite lookup_update_eq. eexists; reflexivity.
Qed.

End Settlement.

(** C7, on a creation that returned three bytes with 100 gas left, 85
    after the deployment charge: the code is installed at the new address,
    the sender gets [85 * 2] back and the fee recipient [(400 - 85) * 2]. *)
Lemma finalize_settles_witness :
  exists e',
    finalize Scenario.created = Some e' /\
    code (m_s e') (m_newAddress Scenario.created) = [1; 2; 3] /\
    balance (m_s e') Scenario.alice = 360 /\
    balance (m_s e') Scenario.miner = 630.
Proof.
  destruct (finalize_settles Scenario.created) as (e' & Hfin & Hcode & Hbal & _).
  - intros _. vm_compute. eexists. reflexivity.
  - assert (Hnone : forall a, a ∉ doomed Scenario.created).
    { intros a. change (doomed Scenario.created) with (∅ : gset Z).
      apply not_elem_of_empty. }
    exists e'. split; [exact Hfin|]. split; [|split].
    + rewrite (Hcode _ (Hnone _)). vm_compute. reflexivity.
    + rewrite (Hbal _ (Hnone _)). vm_compute. reflexivity.
    + rewrite (Hbal _ (Hnone _)). vm_compute. reflexivity.
Defined.

(** C8, on a creation whose 30 bytes of output would cost 150 gas with 100
    left: the end-gas stays at 100 and the output is dropped. *)
Lemma go_charges_deployment_witness :
  exists e',
    go Scenario.deploying Scenario.in_creation = Some (e', true) /\
    m_endGas e' = 100 /\ m_out e' = [].
Proof.
  destruct (go_charges_deployment Scenario.deploying Scenario.in_creation
              (mkVM 400)
              (mkExtVM (m_newAddress Scenario.in_creation) Scenario.alice
                 Scenario.alice 10 2 [] [96; 30; 96; 0; 243] 0 SubState_empty)
              (repeat 0 30) eq_refl eq_refl eq_refl eq_refl eq_refl)
    as (e' & Hgo & _ & _ & _ & Hdrop).
  exists e'. split; [exact Hgo|].
  destruct Hdrop as (Hgas & Hout & _).
  - vm_compute. reflexivity.
  - split; [exact Hgas | exact Hout].
Defined.

(** ** The life cycle of a transaction *)

Section Lifecycle.

Variable X : Collaborators.

(** What [call] leaves in the fields it does not compute. *)
Lemma call_fields e r c sd v gp d g o :
  let e1 := fst (call X e r c sd v gp d g o) in
  m_t e1 = m_t e /\ m_sender e1 = m_sender e /\
  m_newAddress e1 = m_newAddress e /\ m_isCreation e1 = false /\
  m_s e1 = addBalance (m_s e) r v /\
  (m_vm e = None -> is_Some (m_vm e1) -> is_Some (m_ext e1)).
Proof.
  cbn zeta. unfold call.
  destruct (precompiled_find X r) as [[k p]|].
  - destruct (g <? pc_gas p d); repeat apply conj; try reflexivity;
      cbn; intros -> [? [=]].
  - cbn [m_s set_s set_isCreation].
    destruct (addressHasCode _ c); repeat apply conj; try reflexivity; cbn.
    + intros _ _. eexists; reflexivity.
    + intros -> [? [=]].
Qed.

Lemma sub_add_one n : U256.in_range n -> U256.sub (U256.add n 1) 1 = n.
Proof.
  intros Hn. unfold U256.sub, U256.add, U256.wrap.
  rewrite Zminus_mod_idemp_l. replace (n + 1 - 1) with n by lia.
  now apply Z.mod_small.
Qed.

Lemma create_fields e sd v gp g init o :
  let e1 := fst (create X e sd v gp g init o) in
  let n := contract_address X sd (U256.sub (transactionsFrom (m_s e) sd) 1) in
  m_t e1 = m_t e /\ m_sender e1 = m_sender e /\
  m_newAddress e1 = n /\ m_isCreation e1 = true /\
  m_vm e1 = Some (mkVM g) /\
  m_ext e1 = Some (mkExtVM n sd o v gp [] init (m_depth e) SubState_empty) /\
  m_s e1 = with_cache (<[n := Account_conception (U256.add (balance (m_s e) n) v)]>
                         (m_cache (m_s e))) (m_s e).
Proof. cbn zeta. unfold create. repeat apply conj; reflexivity. Qed.

(** An accepted transaction went through the checks, the charge and the
    dispatch. *)
Lemma setup_accepted s lvl _rlp e1 b :
  setup X (Executive_new s lvl) _rlp = (e1, inr b) ->
  exists t,
    Transaction_decode X _rlp = Some t /\
    validate X s t = None /\
    dispatch X (charge (set_sender (sender t) (set_t t (Executive_new s lvl)))) = (e1, b).
Proof.
  unfold setup. destruct (Transaction_decode X _rlp) as [t|]; [|discriminate].
  cbn [m_s m_t set_sender set_t Executive_new].
  destruct (validate X s t) as [err|] eqn:Hv; [discriminate|].
  destruct (dispatch X _) as [e2 r] eqn:Hd.
  intros [= <- <-]. exists t. split; [reflexivity|]. split; [exact Hv|exact Hd].
Qed.

Lemma validate_None s t :
  validate X s t = None ->
  nonce t = transactionsFrom s (sender t) /\
  txGas X (data t) <= gas t /\
  upfront_cost t <= balance s (sender t) /\
  U256.add (gasUsed s) (gas t) <= gasLimit (m_currentBlock s).
Proof.
  unfold validate.
  destruct (Z.eqb_spec (nonce t) (transactionsFrom s (sender t))) as [Hn|]; [|discriminate].
  cbn [negb].
  destruct (Z.ltb_spec (gas t) (txGas X (data t))); [discriminate|].
  destruct (Z.ltb_spec (balance s (sender t)) (upfront_cost t)); [discriminate|].
  rewrite Z.gtb_ltb.
  destruct (Z.ltb_spec (gasLimit (m_currentBlock s)) (U256.add (gasUsed s) (gas t)));
    [discriminate|].
  intros _. repeat split; assumption.
Qed.

(** The executive [setup] hands over for an accepted transaction. *)
Lemma setup_frame s lvl _rlp e1 b t :
  wf_State s ->
  Transaction_decode X _rlp = Some t ->
  setup X (Executive_new s lvl) _rlp = (e1, inr b) ->
  let charged := m_s (charge (set_sender (sender t) (set_t t (Executive_new s lvl)))) in
  m_t e1 = t /\ m_sender e1 = sender t /\
  m_isCreation e1 = isCreation t /\
  (isCreation t = true -> is_Some (m_ext e1)) /\
  (is_Some (m_vm e1) -> is_Some (m_ext e1)) /\
  (forall r, receiveAddress t = Some r -> m_s e1 = addBalance charged r (value t)) /\
  (receiveAddress t = None ->
     m_newAddress e1 = contract_address X (sender t) (nonce t) /\
     forall a, a <> m_newAddress e1 -> m_cache (m_s e1) !! a = m_cache charged !! a).
Proof.
  intros Hwf Hd Hsetup. cbn zeta.
  destruct (setup_accepted s lvl _rlp e1 b Hsetup) as (t' & Hd' & Hval & Hdisp).
  rewrite Hd in Hd'. injection Hd' as <-.
  apply validate_None in Hval as (Hn & _).
  unfold dispatch in Hdisp.
  cbn [m_t m_sender charge set_s set_sender set_t Executive_new] in Hdisp.
  unfold isCreation.
  destruct (receiveAddress t) as [r|] eqn:Hr.
  - match type of Hdisp with call X ?e0 ?r ?c ?sd ?v ?gp ?d ?g ?o = _ =>
      pose proof (call_fields e0 r c sd v gp d g o) as Hf
    end.
    rewrite Hdisp in Hf. cbn zeta in Hf. cbn [fst] in Hf.
    destruct Hf as (Ht & Hsd & _ & Hic & Hs & Hvm).
    repeat apply conj; try assumption; try discriminate.
    + apply Hvm. reflexivity.
    + intros r' [= <-]. exact Hs.
  - match type of Hdisp with create X ?e0 ?sd ?v ?gp ?g ?i ?o = _ =>
      pose proof (create_fields e0 sd v gp g i o) as Hf
    end.
    rewrite Hdisp in Hf. cbn zeta in Hf. cbn [fst] in Hf.
    destruct Hf as (Ht & Hsd & Hna & Hic & Hvm & Hext & Hs).
    repeat apply conj; try assumption; try discriminate.
    + intros _. rewrite Hext. eexists; reflexivity.
    + intros _. rewrite Hext. eexists; reflexivity.
    + intros _. split.
      * rewrite Hna. f_equal.
        pose proof (charge_state (set_sender (sender t) (set_t t (Executive_new s lvl))))
          as (Hnonce & _).
        cbn [m_sender m_s set_sender set_t Executive_new] in Hnonce.
        rewrite Hnonce.
        rewrite sub_add_one by (apply nonce_range; exact Hwf).
        now symmetry.
      * intros a Ha. rewrite Hs. cbn [m_cache with_cache].
        rewrite lookup_insert_ne; [reflexivity|].
        intros Heq. apply Ha. rewrite Hna. now symmetry.
Qed.

(** What [go] leaves in the fields it does not compute. *)
Lemma go_fields e e2 b :
  go X e = Some (e2, b) ->
  m_t e2 = m_t e /\ m_sender e2 = m_sender e /\
  m_newAddress e2 = m_newAddress e /\
  (is_Some (m_ext e) -> is_Some (m_ext e2)) /\
  (m_vm e = None -> e2 = e).
Proof.
  unfold go. destruct (m_vm e) as [vm|] eqn:Hvm.
  - destruct (m_ext e) as [x|] eqn:Hx; [|discriminate].
    cbn zeta.
    destruct (run_signal (vm_go X (m_s e) x (vm_gas vm))) as [out| | | |];
      intros [= <- <-].
    + match goal with |- context [conclude X ?e0 ?o ?g ?y] =>
        pose proof (conclude_frame X e0 o g y) as (_ & Hx' & Ht & Hsd & Hna & _)
      end.
      rewrite Ht, Hsd, Hna, Hx'.
      repeat apply conj; try reflexivity; try discriminate.
      intros _. eexists; reflexivity.
    + repeat apply conj; try reflexivity; try discriminate. intros _. eexists; reflexivity.
    + repeat apply conj; try reflexivity; try discriminate. intros _. eexists; reflexivity.
    + repeat apply conj; try reflexivity; try discriminate. intros _. eexists; reflexivity.
    + repeat apply conj; try reflexivity; try discriminate. intros _. eexists; reflexivity.
  - intros [= <- <-]. repeat apply conj; try reflexivity. intros H; exact H.
Qed.

(** Every accepted transaction runs to the end: after [setup], both [go]
    and [finalize] are defined. *)
Lemma lifecycle_defined s lvl _rlp e1 b :
  wf_State s ->
  setup X (Executive_new s lvl) _rlp = (e1, inr b) ->
  exists e2 b2 e3, go X e1 = Some (e2, b2) /\ finalize e2 = Some e3.
Proof.
  intros Hwf Hsetup.
  destruct (setup_accepted s lvl _rlp e1 b Hsetup) as (t & Hd & _ & _).
  pose proof (setup_frame s lvl _rlp e1 b t Hwf Hd Hsetup) as Hf.
  cbn zeta in Hf. destruct Hf as (Ht & _ & _ & Hcre & Hvm & _).
  destruct (go X e1) as [[e2 b2]|] eqn:Hgo.
  - exists e2, b2.
    destruct (go_fields e1 e2 b2 Hgo) as (Ht2 & _ & _ & Hx2 & _).
    assert (Hinv : isCreation (m_t e2) = true -> is_Some (m_ext e2)).
    { rewrite Ht2, Ht. intros Hc. apply Hx2, Hcre, Hc. }
    rewrite (finalize_unfold e2 Hinv). eexists. split; reflexivity.
  - exfalso. unfold go in Hgo.
    destruct (m_vm e1) as [vm|] eqn:Hv; [|discriminate].
    destruct Hvm as [x Hx]; [eexists; reflexivity|].
    rewrite Hx in Hgo. cbn zeta in Hgo.
    destruct (run_signal _); discriminate.
Qed.

End Lifecycle.

(** ** Creation addresses *)

(** Searching a value among the first [m] images of [f]. *)
Lemma bounded_find (f : Z -> Z) (v m : Z) :
  0 <= m ->
  (exists i, 0 <= i < m /\ f i = v) \/ (forall i, 0 <= i < m -> f i <> v).
Proof.
  intros Hm. revert m Hm. apply natlike_ind.
  - right. intros i Hi. lia.
  - intros m Hm [(i & Hi & Hv)|Hnone].
    + left. exists i. split; [lia|exact Hv].
    + destruct (Z.eq_dec (f m) v) as [Heq|Hne].
      * left. exists m. split; [lia|exact Heq].
      * right. intros i Hi. destruct (Z.eq_dec i m) as [->|Him]; [exact Hne|].
        apply Hnone. lia.
Qed.

(** Among [m + 1] arguments mapped below [m], two have the same image. *)
Lemma pigeonhole (m : Z) :
  0 <= m ->
  forall f : Z -> Z,
    (forall i, 0 <= i <= m -> 0 <= f i < m) ->
    exists i j, 0 <= i < j /\ j <= m /\ f i = f j.
Proof.
  intros Hm. revert m Hm. apply (natlike_ind (fun m => forall f : Z -> Z,
    (forall i, 0 <= i <= m -> 0 <= f i < m) ->
    exists i j, 0 <= i < j /\ j <= m /\ f i = f j)).
  - intros f Hf. specialize (Hf 0). lia.
  - intros m Hm IH f Hf.
    destruct (bounded_find f (f (Z.succ m)) (Z.succ m)) as [(i & Hi & Hv)|Hnone]; [lia| |].
    + exists i, (Z.succ m). split; [lia|]. split; [lia|exact Hv].
    + set (v := f (Z.succ m)) in *.
      destruct (IH (fun i => if f i <? v then f i else f i - 1)) as (i & j & Hij & Hj & Heq).
      * intros i Hi. cbn beta.
        pose proof (Hf i ltac:(lia)) as Hfi.
        pose proof (Hnone i ltac:(lia)) as Hni.
        pose proof (Hf (Z.succ m) ltac:(lia)) as Hfv. fold v in Hfv.
        destruct (Z.ltb_spec (f i) v); lia.
      * exists i, j. split; [lia|]. split; [lia|].
        cbn beta in Heq.
        pose proof (Hnone i ltac:(lia)) as Hni.
        pose proof (Hnone j ltac:(lia)) as Hnj.
        destruct (Z.ltb_spec (f i) v), (Z.ltb_spec (f j) v); lia.
Qed.

Lemma h160_below_u256 : h160_modulus < U256.modulus.
Proof. unfold h160_modulus, U256.modulus. apply Z.pow_lt_mono_r; lia. Qed.

Lemma h160_modulus_pos : 0 < h160_modulus.
Proof. unfold h160_modulus. apply Z.pow_pos_nonneg; lia. Qed.

Lemma contract_address_range X sd n : 0 <= contract_address X sd n < h160_modulus.
Proof. unfold contract_address, right160. apply Z.mod_pos_bound, h160_modulus_pos. Qed.

(** C4, refuted as stated: whatever the hash and the encoder, no sender's
    creation addresses are pairwise distinct over all nonces, for there are
    more nonces than addresses. *)
Lemma creation_addresses_collide :
  ~ (exists (X : Collaborators) (sd : Address),
       forall n1 n2, U256.in_range n1 -> U256.in_range n2 -> n1 <> n2 ->
         contract_address X sd n1 <> contract_address X sd n2).
Proof.
  intros (X & sd & Hinj).
  pose proof h160_modulus_pos as Hpos.
  pose proof h160_below_u256 as Hlt.
  destruct (pigeonhole h160_modulus ltac:(lia) (contract_address X sd))
    as (i & j & Hij & Hj & Heq).
  - intros i _. apply contract_address_range.
  - apply (Hinj i j); unfold U256.in_range; lia.
Qed.

(** C4, as amended.  The address a creation transaction gets is
    [right160 (sha3 (rlpList (sender, n)))] for [n] the sender's nonce
    before [setup] incremented it, which is the nonce of the transaction;
    it depends on nothing else, so two creations with the same sender and
    the same pre-increment nonce get the same address, in whatever ledger
    states, and creations with different addresses differ in sender or
    nonce. *)
Theorem creation_address_determined (X : Collaborators)
    (s s' : State) (lvl lvl' : Z) (_rlp _rlp' : bytes) (t t' : Transaction)
    (e1 e1' : Executive) (b b' : bool) :
  wf_State s -> wf_State s' ->
  Transaction_decode X _rlp = Some t ->
  Transaction_decode X _rlp' = Some t' ->
  receiveAddress t = None -> receiveAddress t' = None ->
  setup X (Executive_new s lvl) _rlp = (e1, inr b) ->
  setup X (Executive_new s' lvl') _rlp' = (e1', inr b') ->
  m_newAddress e1 =
    right160 (sha3 X (rlpList X (sender t) (transactionsFrom s (sender t)))) /\
  nonce t = transactionsFrom s (sender t) /\
  (sender t = sender t' ->
   transactionsFrom s (sender t) = transactionsFrom s' (sender t') ->
     m_newAddress e1 = m_newAddress e1') /\
  (m_newAddress e1 <> m_newAddress e1' ->
     sender t <> sender t' \/
     transactionsFrom s (sender t) <> transactionsFrom s' (sender t')).
Proof.
  intros Hwf Hwf' Hd Hd' Hr Hr' Hsetup Hsetup'.
  destruct (setup_accepted X s lvl _rlp e1 b Hsetup) as (t0 & Hd0 & Hval & _).
  rewrite Hd in Hd0. injection Hd0 as <-.
  destruct (setup_accepted X s' lvl' _rlp' e1' b' Hsetup') as (t0 & Hd0 & Hval' & _).
  rewrite Hd' in Hd0. injection Hd0 as <-.
  apply validate_None in Hval as (Hn & _).
  apply validate_None in Hval' as (Hn' & _).
  pose proof (setup_frame X s lvl _rlp e1 b t Hwf Hd Hsetup) as Hf.
  pose proof (setup_frame X s' lvl' _rlp' e1' b' t' Hwf' Hd' Hsetup') as Hf'.
  cbn zeta in Hf, Hf'.
  destruct Hf as (_ & _ & _ & _ & _ & _ & Hna).
  destruct Hf' as (_ & _ & _ & _ & _ & _ & Hna').
  destruct (Hna Hr) as (Ha & _). destruct (Hna' Hr') as (Ha' & _).
  unfold contract_address in Ha, Ha'. rewrite Hn in Ha. rewrite Hn' in Ha'.
  split; [exact Ha|]. split; [exact Hn|]. split.
  - intros Hs Hnn. rewrite Ha, Ha', Hnn, Hs. reflexivity.
  - intros Hne.
    destruct (Z.eq_dec (sender t) (sender t')) as [Hs|Hs]; [|now left].
    destruct (Z.eq_dec (transactionsFrom s (sender t)) (transactionsFrom s' (sender t')))
      as [Hnn|Hnn]; [|now right].
    exfalso. apply Hne. rewrite Ha, Ha', Hnn, Hs. reflexivity.
Qed.

(** C4, on two creations by the same sender at nonce 0, in two ledgers
    and with two payloads: the same address. *)
Lemma creation_address_determined_witness :
  m_newAddress (fst (setup Scenario.two_deploys Scenario.fresh []))
  = m_newAddress (fst (setup Scenario.two_deploys
                         (Executive_new Scenario.ledger_with_library 3) [1])).
Proof.
  assert (H1 : setup Scenario.two_deploys (Executive_new Scenario.ledger 0) []
               = (fst (setup Scenario.two_deploys Scenario.fresh []), inr false)).
  { vm_compute. reflexivity. }
  assert (H2 : setup Scenario.two_deploys
                 (Executive_new Scenario.ledger_with_library 3) [1]
               = (fst (setup Scenario.two_deploys
                         (Executive_new Scenario.ledger_with_library 3) [1]),
                  inr false)).
  { vm_compute. reflexivity. }
  pose proof (creation_address_determined Scenario.two_deploys
                Scenario.ledger Scenario.ledger_with_library 0 3 [] [1]
                Scenario.deploy Scenario.deploy_other
                (fst (setup Scenario.two_deploys Scenario.fresh []))
                (fst (setup Scenario.two_deploys
                        (Executive_new Scenario.ledger_with_library 3) [1]))
                false false
                (wf_State_check Scenario.ledger eq_refl)
                (wf_State_check Scenario.ledger_with_library eq_refl)
                eq_refl eq_refl eq_refl eq_refl H1 H2)
    as (_ & _ & Hsame & _).
  apply Hsame; reflexivity.
Defined.

(** ** What the sender pays *)

Section Accounting.

Variable X : Collaborators.

Lemma settle_modular bal v g gp eg :
  U256.sub bal (U256.wrap (U256.sub bal (U256.add v (U256.mul g gp)) + U256.mul eg gp))
  = U256.add v (U256.mul (U256.sub g eg) gp).
Proof.
  unfold U256.sub, U256.add, U256.mul, U256.wrap.
  repeat (rewrite Zplus_mod_idemp_l || rewrite Zplus_mod_idemp_r ||
          rewrite Zminus_mod_idemp_l || rewrite Zminus_mod_idemp_r ||
          rewrite Zmult_mod_idemp_l || rewrite Zmult_mod_idemp_r).
  pose proof U256Facts.modulus_pos as HM.
  rewrite (Z.mod_eq (v + g * gp) U256.modulus) by lia.
  rewrite (Z.mod_eq (g - eg) U256.modulus) by lia.
  set (q1 := (v + g * gp) / U256.modulus).
  set (q2 := (g - eg) / U256.modulus).
  replace (bal - (bal - (v + g * gp - U256.modulus * q1) + eg * gp))
    with (v + (g - eg) * gp + (- q1) * U256.modulus) by ring.
  replace (v + (g - eg - U256.modulus * q2) * gp)
    with (v + (g - eg) * gp + (- q2 * gp) * U256.modulus) by ring.
  now rewrite !Z_mod_plus_full.
Qed.

Lemma settle_exact bal v g gp eg :
  U256.in_range bal -> U256.in_range v -> U256.in_range g -> U256.in_range gp ->
  v + g * gp < U256.modulus ->
  v + g * gp <= bal ->
  0 <= eg <= g ->
  U256.wrap (U256.sub bal (U256.add v (U256.mul g gp)) + U256.mul eg gp)
  = bal - (v + g * gp) + eg * gp.
Proof.
  unfold U256.in_range. intros Hb Hv Hg Hp Hlt Hle He.
  assert (Hegp : 0 <= eg * gp <= g * gp) by nia.
  unfold U256.mul.
  rewrite (U256Facts.wrap_small (g * gp)) by (unfold U256.in_range; nia).
  rewrite (U256Facts.wrap_small (eg * gp)) by (unfold U256.in_range; nia).
  rewrite U256Facts.add_exact by nia.
  rewrite U256Facts.sub_exact by (unfold U256.in_range; nia).
  apply U256Facts.wrap_small. unfold U256.in_range. nia.
Qed.

(** C5, as amended.  For an accepted transaction whose sender is neither
    the receiver (for a creation: the new address) nor the block's fee
    recipient, whose executed code leaves the sender's balance as it was
    and does not put the sender in the self-destruct set: the sender's
    balance before [setup] minus its balance after [finalize] is
    [value + (gas - endGas) * gasPrice] in [u256] arithmetic, and exactly so
    over the integers when [value + gas * gasPrice] fits 256 bits and
    [0 <= endGas <= gas]. *)
Theorem sender_pays_value_and_gas_used
    (s : State) (lvl : Z) (_rlp : bytes) (t : Transaction)
    (e1 e2 e3 : Executive) (b b2 : bool) :
  wf_State s ->
  Transaction_decode X _rlp = Some t ->
  setup X (Executive_new s lvl) _rlp = (e1, inr b) ->
  go X e1 = Some (e2, b2) ->
  finalize e2 = Some e3 ->
  sender t <> coinbaseAddress (m_currentBlock s) ->
  (forall r, receiveAddress t = Some r -> r <> sender t) ->
  (receiveAddress t = None -> m_newAddress e1 <> sender t) ->
  balance (m_s e2) (sender t) = balance (m_s e1) (sender t) ->
  sender t ∉ doomed e2 ->
  U256.sub (balance s (sender t)) (balance (m_s e3) (sender t))
    = U256.add (value t)
        (U256.mul (U256.sub (gas t) (m_endGas e3)) (gasPrice t)) /\
  (wf_Transaction t ->
   value t + gas t * gasPrice t < U256.modulus ->
   0 <= m_endGas e3 <= gas t ->
     balance s (sender t) - balance (m_s e3) (sender t)
       = value t + (gas t - m_endGas e3) * gasPrice t).
Proof.
  intros Hwf Hd Hsetup Hgo Hfin Hcb Hrcv Hnew Hvm Hdoom.
  destruct (setup_accepted X s lvl _rlp e1 b Hsetup) as (t0 & Hd0 & Hval & _).
  rewrite Hd in Hd0. injection Hd0 as <-.
  apply validate_None in Hval as (_ & _ & Hcost & _).
  pose proof (setup_frame X s lvl _rlp e1 b t Hwf Hd Hsetup) as Hf.
  cbn zeta in Hf.
  destruct Hf as (Ht1 & Hsd1 & _ & Hcre & _ & Hcall & Hcreate).
  pose proof (charge_state (set_sender (sender t) (set_t t (Executive_new s lvl))))
    as (_ & Hbalc & _ & _ & Hblk & _).
  cbn [m_sender m_s m_t set_sender set_t Executive_new] in Hbalc, Hblk.
  set (charged := m_s (charge (set_sender (sender t) (set_t t (Executive_new s lvl))))) in *.
  (* the balance [setup] leaves *)
  assert (Hb1 : balance (m_s e1) (sender t) = U256.sub (balance s (sender t)) (upfront_cost t)).
  { rewrite <- Hbalc. destruct (receiveAddress t) as [r|] eqn:Hr.
    - rewrite (Hcall r eq_refl). apply balance_addBalance_ne. now apply Hrcv.
    - destruct (Hcreate eq_refl) as (_ & Hsame).
      unfold balance, account. rewrite Hsame; [reflexivity|].
      intros Heq. apply Hnew; [reflexivity | now symmetry]. }
  (* the block does not change *)
  assert (Hblk1 : m_currentBlock (m_s e1) = m_currentBlock s).
  { rewrite <- Hblk. destruct (receiveAddress t) as [r|] eqn:Hr.
    - rewrite (Hcall r eq_refl). reflexivity.
    - unfold dispatch in *. clear - Hsetup Hd Hr.
      unfold setup in Hsetup. rewrite Hd in Hsetup.
      cbn [m_s m_t set_sender set_t Executive_new] in Hsetup.
      destruct (validate X s t); [discriminate|].
      unfold dispatch in Hsetup.
      cbn [m_t charge set_s set_sender set_t Executive_new] in Hsetup.
      rewrite Hr in Hsetup.
      match type of Hsetup with
        (let '(_, _) := create X ?e0 ?sd ?v ?gp ?g ?i ?o in _) = _ =>
          pose proof (create_fields X e0 sd v gp g i o) as Hf;
          destruct (create X e0 sd v gp g i o) as [e' r'] eqn:Hc
      end.
      injection Hsetup as <- _. cbn zeta in Hf. cbn [fst] in Hf.
      destruct Hf as (_ & _ & _ & _ & _ & _ & ->). reflexivity. }
  destruct (go_fields X e1 e2 b2 Hgo) as (Ht2 & Hsd2 & _ & Hx2 & _).
  assert (Hblk2 : m_currentBlock (m_s e2) = m_currentBlock s).
  { rewrite <- Hblk1. clear - Hgo. unfold go in Hgo.
    destruct (m_vm e1) as [vm|]; [|now injection Hgo as <- _].
    destruct (m_ext e1) as [x|]; [|discriminate]. cbn zeta in Hgo.
    destruct (run_signal _); injection Hgo as <- _; try reflexivity.
    match goal with |- context [conclude X ?e0 ?o ?g ?y] =>
      pose proof (conclude_frame X e0 o g y) as (-> & _) end.
    reflexivity. }
  assert (Hinv : isCreation (m_t e2) = true -> is_Some (m_ext e2)).
  { rewrite Ht2, Ht1. intros Hc. apply Hx2, Hcre, Hc. }
  pose proof (finalize_balance e2 e3 (sender t) Hfin Hinv Hdoom) as Hb3.
  cbn zeta in Hb3.
  rewrite Hsd2, Hsd1, Hblk2, Ht2, Ht1 in Hb3.
  rewrite (bool_decide_eq_false_2 _ Hcb) in Hb3.
  rewrite (bool_decide_eq_true_2 (sender t = sender t) eq_refl) in Hb3.
  destruct (finalize_fields e2 e3 Hfin Hinv) as (Heg & _).
  rewrite Hvm, Hb1, <- Heg in Hb3.
  rewrite Hb3. unfold upfront_cost. split.
  - apply settle_modular.
  - intros (_ & Hv & Hp & Hg) Hfit Heg3.
    assert (Hcost' : value t + gas t * gasPrice t <= balance s (sender t)).
    { unfold upfront_cost in Hcost.
      unfold U256.in_range in *.
      unfold U256.mul in Hcost.
      rewrite (U256Facts.wrap_small (gas t * gasPrice t)) in Hcost
        by (unfold U256.in_range; nia).
      rewrite U256Facts.add_exact in Hcost by nia. exact Hcost. }
    rewrite settle_exact; try assumption; [ring|].
    apply balance_range, Hwf.
Qed.

End Accounting.

(** C5, refuted as stated: the contract paid by the transaction sends 40
    back to the sender, who ends 100 lighter while
    [value + (gas - endGas) * gasPrice] is 140. *)
Lemma sender_payment_counterexample :
  exists e,
    execute Scenario.rebating (Executive_new Scenario.ledger_with_library 0) []
      = Finalized e /\
    Scenario.alice <> Scenario.library /\
    Scenario.alice <> Scenario.miner /\
    balance Scenario.ledger_with_library Scenario.alice
      - balance (m_s e) Scenario.alice = 100 /\
    value Scenario.pay_library
      + (gas Scenario.pay_library - m_endGas e) * gasPrice Scenario.pay_library
      = 140 /\
    U256.sub (balance Scenario.ledger_with_library Scenario.alice)
             (balance (m_s e) Scenario.alice)
      <> U256.add (value Scenario.pay_library)
           (U256.mul (U256.sub (gas Scenario.pay_library) (m_endGas e))
              (gasPrice Scenario.pay_library)).
Proof.
  eexists. split; [vm_compute; reflexivity|].
  repeat apply conj; vm_compute; congruence.
Qed.

(** C5 as amended, on the call that runs code and returns with 20 of 50
    gas left and a refund of 15: the sender pays [(50 - 35) * 2]. *)
Lemma sender_pays_value_and_gas_used_witness :
  go Scenario.refunding (Scenario.in_frame Scenario.refunding)
    = Some (Scenario.after_call, true) /\
  finalize Scenario.after_call = Some Scenario.settled /\
  m_endGas Scenario.settled = 35 /\
  balance Scenario.ledger_with_library Scenario.alice
    - balance (m_s Scenario.settled) Scenario.alice
    = 0 + (50 - m_endGas Scenario.settled) * 2.
Proof.
  assert (Hsetup : setup Scenario.refunding
                     (Executive_new Scenario.ledger_with_library 0) []
                   = (Scenario.in_frame Scenario.refunding, inr false)).
  { vm_compute. reflexivity. }
  assert (Hgo : go Scenario.refunding (Scenario.in_frame Scenario.refunding)
                = Some (Scenario.after_call, true)).
  { vm_compute. reflexivity. }
  assert (Hfin : finalize Scenario.after_call = Some Scenario.settled).
  { vm_compute. reflexivity. }
  split; [exact Hgo|]. split; [exact Hfin|].
  destruct (sender_pays_value_and_gas_used Scenario.refunding
              Scenario.ledger_with_library 0 [] Scenario.call_library
              (Scenario.in_frame Scenario.refunding) Scenario.after_call
              Scenario.settled false true
              (wf_State_check Scenario.ledger_with_library eq_refl)
              eq_refl Hsetup Hgo Hfin)
    as (_ & Hexact).
  - vm_compute. discriminate.
  - intros r Hr. vm_compute in Hr. injection Hr as <-. vm_compute. discriminate.
  - intros Hr. vm_compute in Hr. discriminate.
  - vm_compute. reflexivity.
  - change (doomed Scenario.after_call) with (∅ : gset Z).
    apply not_elem_of_empty.
  - split; [vm_compute; reflexivity|].
    apply Hexact.
    + apply wf_Transaction_check. reflexivity.
    + vm_compute. reflexivity.
    + vm_compute. split; discriminate.
Defined.

(** ** The plain value transfer *)

Section PlainTransfer.

Variable X : Collaborators.

(** The branch of [call] for a receiver that is no native contract, with no
    code at the code address. *)
Lemma call_plain e r c sd v gp d g o :
  precompiled_find X r = None ->
  addressHasCode (m_s e) c = false ->
  call X e r c sd v gp d g o =
    (set_endGas g (set_s (addBalance (m_s e) r v) (set_isCreation false e)),
     is_null (m_ext e)).
Proof.
  intros Hp Hc. unfold call. rewrite Hp.
  cbn [m_s set_s set_isCreation].
  rewrite addressHasCode_addBalance, Hc. reflexivity.
Qed.

Lemma account_charge_other e a :
  a <> m_sender e -> account (m_s (charge e)) a = account (m_s e) a.
Proof.
  intros Ha. pose proof (charge_state e) as (_ & _ & _ & Hother & _).
  unfold account. now rewrite Hother.
Qed.

Lemma code_charge e a : code (m_s (charge e)) a = code (m_s e) a.
Proof.
  destruct (decide (a = m_sender e)) as [->|Hne].
  - apply (charge_state e).
  - unfold code. now rewrite account_charge_other.
Qed.

(** C9, as amended.  Scenario 1 with the intrinsic gas [i] of the payload
    taken into account: when [i] exceeds the gas limit of 50 the
    transaction is rejected with [OutOfGas]; otherwise validation passes,
    the sender is debited 200 (balance 800), the receiver is credited 100,
    the no-code path of [call] sets end-gas to [50 - i], [go] is a no-op,
    and [finalize] refunds the sender [2 * (50 - i)] (balance
    [900 - 2 * i]), credits the fee recipient [2 * i], and leaves the
    sender's nonce at 1. *)
Theorem plain_transfer_scenario
    (s : State) (lvl : Z) (_rlp : bytes) (t : Transaction) (rcv : Address) :
  wf_State s ->
  Transaction_decode X _rlp = Some t ->
  nonce t = 0 -> value t = 100 -> gas t = 50 -> gasPrice t = 2 ->
  receiveAddress t = Some rcv ->
  balance s (sender t) = 1000 ->
  transactionsFrom s (sender t) = 0 ->
  precompiled_find X rcv = None ->
  addressHasCode s rcv = false ->
  gasUsed s + 50 <= gasLimit (m_currentBlock s) ->
  sender t <> rcv ->
  sender t <> coinbaseAddress (m_currentBlock s) ->
  rcv <> coinbaseAddress (m_currentBlock s) ->
  let i := txGas X (data t) in
  let miner := coinbaseAddress (m_currentBlock s) in
  (50 < i ->
     exists e1,
       setup X (Executive_new s lvl) _rlp = (e1, inl (OutOfGas i 50)) /\
       m_s e1 = s) /\
  (0 <= i <= 50 ->
     exists e1 e3,
       setup X (Executive_new s lvl) _rlp = (e1, inr true) /\
       balance (m_s e1) (sender t) = 800 /\
       balance (m_s e1) rcv = U256.wrap (balance s rcv + 100) /\
       m_endGas e1 = 50 - i /\
       go X e1 = Some (e1, true) /\
       finalize e1 = Some e3 /\
       m_endGas e3 = 50 - i /\
       balance (m_s e3) (sender t) = 900 - 2 * i /\
       balance (m_s e3) rcv = U256.wrap (balance s rcv + 100) /\
       balance (m_s e3) miner = U256.wrap (balance s miner + 2 * i) /\
       transactionsFrom (m_s e3) (sender t) = 1).
Proof.
  intros Hwf Hd Hn Hv Hg Hp Hr Hbal Hnonce Hpre Hcode Hblock Hsr Hsm Hrm.
  cbn zeta. rewrite (setup_unfold X _ _rlp t Hd). cbn zeta.
  cbn [m_s Executive_new].
  pose proof U256Facts.modulus_pos as HM.
  assert (Hbig : 1024 < U256.modulus).
  { unfold U256.modulus. change 1024 with (2 ^ 10). apply Z.pow_lt_mono_r; lia. }
  split.
  - intros Hi. exists (set_sender (sender t) (set_t t (Executive_new s lvl))).
    split; [|reflexivity].
    unfold validate. rewrite Hn, Hnonce. cbn [Z.eqb negb].
    rewrite Hg. rewrite (proj2 (Z.ltb_lt 50 _) Hi). reflexivity.
  - intros Hi.
    assert (Hcost : upfront_cost t = 200).
    { unfold upfront_cost. rewrite Hv, Hg, Hp. unfold U256.mul.
      rewrite (U256Facts.wrap_small (50 * 2)) by (unfold U256.in_range; lia).
      apply U256Facts.add_exact; lia. }
    destruct Hwf as (Hacc & Hgu & Hgl). pose proof (conj Hacc (conj Hgu Hgl)) as Hwf.
    unfold U256.in_range in Hgu, Hgl.
    rewrite validate_pass.
    2:{ now rewrite Hn, Hnonce. }
    2:{ rewrite Hg. lia. }
    2:{ rewrite Hcost, Hbal. lia. }
    2:{ rewrite Hg. unfold U256.add, U256.wrap, gasUsed in *.
        rewrite Z.mod_small; lia. }
    set (e0 := set_sender (sender t) (set_t t (Executive_new s lvl))).
    pose proof (charge_state e0) as (Hcn & Hcb & _ & Hco & Hcblk & _).
    change (m_sender e0) with (sender t) in *.
    change (m_s e0) with s in *. change (m_t e0) with t in *.
    rewrite Hcost, Hbal in Hcb. rewrite Hnonce in Hcn.
    assert (Hgas : U256.sub (gas t) (U256.wrap (txGas X (data t)))
                   = 50 - txGas X (data t)).
    { rewrite Hg, U256Facts.wrap_small by (unfold U256.in_range; lia).
      apply U256Facts.sub_exact; unfold U256.in_range; lia. }
    unfold dispatch. change (m_t (charge e0)) with t. rewrite Hr.
    change (m_sender (charge e0)) with (sender t).
    rewrite call_plain; [|exact Hpre|].
    2:{ unfold addressHasCode. rewrite code_charge. exact Hcode. }
    change (m_ext (charge e0)) with (@None ExtVM). cbn [is_null].
    rewrite Hgas, Hv.
    set (e1 := set_endGas (50 - txGas X (data t))
                 (set_s (addBalance (m_s (charge e0)) rcv 100)
                    (set_isCreation false (charge e0)))).
    assert (Hinv : isCreation (m_t e1) = true -> is_Some (m_ext e1)).
    { change (m_t e1) with t. unfold isCreation. rewrite Hr. discriminate. }
    assert (Hb1s : balance (m_s e1) (sender t) = 800).
    { change (m_s e1) with (addBalance (m_s (charge e0)) rcv 100).
      rewrite balance_addBalance_ne by (intros Heq; now apply Hsr).
      rewrite Hcb. vm_compute. reflexivity. }
    assert (Hb1r : balance (m_s e1) rcv = U256.wrap (balance s rcv + 100)).
    { change (m_s e1) with (addBalance (m_s (charge e0)) rcv 100).
      rewrite balance_addBalance_eq. unfold balance.
      rewrite account_charge_other; [reflexivity|].
      intros Heq. now apply Hsr. }
    assert (Hb1m : balance (m_s e1) (coinbaseAddress (m_currentBlock s))
                   = balance s (coinbaseAddress (m_currentBlock s))).
    { change (m_s e1) with (addBalance (m_s (charge e0)) rcv 100).
      rewrite balance_addBalance_ne by exact Hrm. unfold balance.
      rewrite account_charge_other; [reflexivity|].
      intros Heq. now apply Hsm. }
    assert (Hblk1 : m_currentBlock (m_s e1) = m_currentBlock s) by exact Hcblk.
    destruct (finalize e1) as [e3|] eqn:Hfin.
    2:{ rewrite (finalize_unfold e1 Hinv) in Hfin. discriminate. }
    assert (Hnd : forall a, a ∉ doomed e1).
    { intros a. change (doomed e1) with (∅ : gset Z). apply not_elem_of_empty. }
    exists e1, e3.
    destruct (finalize_fields e1 e3 Hfin Hinv) as (Heg & _).
    refine (conj eq_refl (conj Hb1s (conj Hb1r (conj eq_refl (conj _
             (conj Hfin (conj Heg (conj _ (conj _ (conj _ _)))))))))).
    + apply go_idle. reflexivity.
    + rewrite (finalize_balance e1 e3 _ Hfin Hinv (Hnd _)). cbn zeta.
      rewrite Hblk1.
      rewrite (bool_decide_eq_false_2 _ Hsm).
      change (m_sender e1) with (sender t).
      rewrite (bool_decide_eq_true_2 (sender t = sender t) eq_refl).
      rewrite Hb1s. change (m_endGas e1) with (50 - txGas X (data t)).
      change (m_t e1) with t. rewrite Hp.
      unfold U256.mul.
      rewrite (U256Facts.wrap_small ((50 - txGas X (data t)) * 2))
        by (unfold U256.in_range; lia).
      rewrite U256Facts.wrap_small by (unfold U256.in_range; lia). lia.
    + rewrite (finalize_balance e1 e3 _ Hfin Hinv (Hnd _)). cbn zeta.
      rewrite Hblk1.
      rewrite (bool_decide_eq_false_2 _ Hrm).
      change (m_sender e1) with (sender t).
      rewrite bool_decide_eq_false_2 by (intros Heq; now apply Hsr).
      exact Hb1r.
    + rewrite (finalize_balance e1 e3 _ Hfin Hinv (Hnd _)). cbn zeta.
      rewrite Hblk1.
      rewrite (bool_decide_eq_true_2 _ eq_refl).
      change (m_sender e1) with (sender t).
      rewrite bool_decide_eq_false_2 by (intros Heq; now apply Hsm).
      rewrite Hb1m. f_equal. f_equal.
      unfold feesEarned. change (m_endGas e1) with (50 - txGas X (data t)).
      change (m_t e1) with t. rewrite Hg, Hp.
      rewrite U256Facts.sub_exact by (unfold U256.in_range; lia).
      unfold U256.mul. rewrite U256Facts.wrap_small by (unfold U256.in_range; lia).
      lia.
    + rewrite (finalize_nonce e1 e3 _ Hfin Hinv (Hnd _)).
      change (m_s e1) with (addBalance (m_s (charge e0)) rcv 100).
      rewrite nonce_addBalance, Hcn. vm_compute. reflexivity.
Qed.

End PlainTransfer.

(** C9, refuted as stated: with an intrinsic gas of 10 the end-gas is 40,
    the sender ends at 880 and the fee recipient gets 20; with an intrinsic
    gas of 500 validation fails. *)
Lemma plain_transfer_counterexample :
  (exists e,
     execute Scenario.taxed Scenario.fresh [] = Finalized e /\
     m_endGas e = 40 /\
     balance (m_s e) Scenario.alice = 880 /\
     balance (m_s e) Scenario.bob = 100 /\
     balance (m_s e) Scenario.miner = 20 /\
     transactionsFrom (m_s e) Scenario.alice = 1) /\
  execute Scenario.heavily_taxed Scenario.fresh [] = Rejected (OutOfGas 500 50).
Proof.
  split; [eexists; split; [vm_compute; reflexivity|]|vm_compute; reflexivity].
  repeat apply conj; vm_compute; reflexivity.
Qed.

(** C9 as amended, on scenario 1 with no intrinsic gas: the figures of the
    specification. *)
Lemma plain_transfer_scenario_witness :
  exists e1 e3,
    setup Scenario.plain Scenario.fresh [] = (e1, inr true) /\
    m_endGas e1 = 50 /\
    finalize e1 = Some e3 /\
    balance (m_s e3) Scenario.alice = 900 /\
    balance (m_s e3) Scenario.miner = 0 /\
    transactionsFrom (m_s e3) Scenario.alice = 1.
Proof.
  destruct (plain_transfer_scenario Scenario.plain Scenario.ledger 0 []
              Scenario.transfer Scenario.bob
              (wf_State_check Scenario.ledger eq_refl)
              eq_refl eq_refl eq_refl eq_refl eq_refl eq_refl eq_refl eq_refl
              eq_refl eq_refl) as (_ & H).
  - vm_compute. discriminate.
  - vm_compute. discriminate.
  - vm_compute. discriminate.
  - vm_compute. discriminate.
  - destruct H as (e1 & e3 & Hs & _ & _ & Hg & _ & Hf & _ & Hb & _ & Hm & Hn).
    + vm_compute. split; discriminate.
    + exists e1, e3. exact (conj Hs (conj Hg (conj Hf (conj Hb (conj Hm Hn))))).
Defined.

(** ** The registry lookup of [call] *)

Section RegistryLookup.

Variable X : Collaborators.

Lemma low_address_unmasked r : 0 <= r < 2 ^ 32 -> Z.land r high_address_bits = 0.
Proof.
  intros Hr. apply Z.bits_inj'. intros n Hn.
  rewrite Z.land_spec, Z.bits_0, high_address_bits_spec by exact Hn.
  destruct (Z.leb_spec 32 n) as [Hge|Hlt]; cbn [andb]; [|apply andb_false_r].
  destruct (Z.eq_dec r 0) as [->|Hr0]; [now rewrite Z.bits_0|].
  rewrite Z.bits_above_log2; [reflexivity|lia|].
  apply Z.log2_lt_pow2; [lia|].
  apply Z.lt_le_trans with (2 ^ 32); [lia|].
  apply Z.pow_le_mono_r; lia.
Qed.

Lemma high_address_masked r :
  2 ^ 32 <= r < h160_modulus -> Z.land r high_address_bits <> 0.
Proof.
  intros Hr Hzero.
  assert (Hpos : 0 < r) by (pose proof (Z.pow_pos_nonneg 2 32); lia).
  assert (Hlo : 32 <= Z.log2 r).
  { apply Z.log2_le_pow2; [exact Hpos|lia]. }
  assert (Hhi : Z.log2 r < 160).
  { apply Z.log2_lt_pow2; [exact Hpos|]. unfold h160_modulus in Hr. lia. }
  assert (Hbit : Z.testbit (Z.land r high_address_bits) (Z.log2 r) = true).
  { rewrite Z.land_spec, Z.bit_log2 by exact Hpos.
    rewrite high_address_bits_spec by lia.
    rewrite (proj2 (Z.leb_le _ _) Hlo), (proj2 (Z.ltb_lt _ _) Hhi). reflexivity. }
  rewrite Hzero, Z.bits_0 in Hbit. discriminate.
Qed.

(** X1.  The registry of native contracts is consulted for receive
    addresses below [2^32] only, under the address itself; a 160-bit
    address at or above [2^32] is never a native contract, whatever its
    low 32 bits. *)
Theorem precompiled_find_bounds (r : Address) :
  0 <= r < h160_modulus ->
  precompiled_find X r =
    if r <? 2 ^ 32
    then match precompiled X !! r with
         | Some p => Some (r, p)
         | None => None
         end
    else None.
Proof.
  intros Hr. unfold precompiled_find.
  destruct (Z.ltb_spec r (2 ^ 32)) as [Hlt|Hge].
  - rewrite low_address_unmasked by lia. cbn [Z.eqb].
    rewrite Z.mod_small by lia. reflexivity.
  - rewrite (proj2 (Z.eqb_neq _ _)); [reflexivity|].
    apply high_address_masked. lia.
Qed.

(** X2.  [call] changes nothing in the ledger but the balance of the
    receive address: every other account, and the nonce, code and storage
    of the receiver, stay as they are.  In particular [call] takes the value
    from nobody. *)
Theorem call_changes_only_receiver_balance (e : Executive)
    (r c sd : Address) (v gp : Z) (d : bytes) (g : Z) (o : Address) :
  let e1 := fst (call X e r c sd v gp d g o) in
  (forall a, a <> r -> m_cache (m_s e1) !! a = m_cache (m_s e) !! a) /\
  (sd <> r -> balance (m_s e1) sd = balance (m_s e) sd) /\
  transactionsFrom (m_s e1) r = transactionsFrom (m_s e) r /\
  code (m_s e1) r = code (m_s e) r /\
  acc_storage (account (m_s e1) r) = acc_storage (account (m_s e) r) /\
  m_currentBlock (m_s e1) = m_currentBlock (m_s e) /\
  gasUsed (m_s e1) = gasUsed (m_s e).
Proof.
  cbn zeta.
  destruct (call_fields X e r c sd v gp d g o) as (_ & _ & _ & _ & Hs & _).
  rewrite Hs. repeat apply conj.
  - intros a Ha. unfold addBalance. apply lookup_update_ne.
    intros Heq. apply Ha. now symmetry.
  - intros Hsd. apply balance_addBalance_ne. intros Heq. apply Hsd. now symmetry.
  - apply nonce_addBalance.
  - apply code_addBalance.
  - unfold addBalance. now rewrite account_update_eq.
  - reflexivity.
  - reflexivity.
Qed.

End RegistryLookup.

(** X1, on the address [2^32 + 2] next to a native contract at [2]. *)
Lemma precompiled_find_bounds_witness :
  precompiled_find Scenario.with_natives Scenario.shadow = None.
Proof.
  rewrite (precompiled_find_bounds Scenario.with_natives Scenario.shadow).
  - reflexivity.
  - vm_compute. split; [discriminate | reflexivity].
Defined.

(** ** What [setup] hands over *)

Section Handover.

Variable X : Collaborators.

(** After [call] on an executive without interpreter and adapter, both are
    there or neither is. *)
Lemma call_pairs_vm_and_adapter e r c sd v gp d g o :
  m_vm e = None -> m_ext e = None ->
  let res := call X e r c sd v gp d g o in
  (m_vm (fst res) = None <-> m_ext (fst res) = None) /\
  (snd res = true -> m_vm (fst res) = None) /\
  (precompiled_find X r = None -> m_vm (fst res) = None -> snd res = true).
Proof.
  intros Hvm Hext. cbn zeta. unfold call.
  destruct (precompiled_find X r) as [[k p]|].
  - destruct (g <? pc_gas p d); cbn; rewrite Hvm, Hext;
      repeat split; intros; try reflexivity; discriminate.
  - cbn [m_s set_s set_isCreation].
    destruct (addressHasCode _ c); cbn; rewrite ?Hext, ?Hvm;
      repeat split; intros; try reflexivity; discriminate.
Qed.

(** X3.  What the result of an accepted [setup] says.  For a message call
    it is [true] only if no interpreter was set up, and, unless the
    receiver is a native contract, exactly then; interpreter and adapter
    exist together.  For a creation an interpreter over the payload as
    code, with empty input, is always set up, and the result only says
    whether the payload is empty. *)
Theorem setup_result_and_interpreter
    (s : State) (lvl : Z) (_rlp : bytes) (t : Transaction)
    (e1 : Executive) (b : bool) :
  Transaction_decode X _rlp = Some t ->
  setup X (Executive_new s lvl) _rlp = (e1, inr b) ->
  (forall r, receiveAddress t = Some r ->
     (m_vm e1 = None <-> m_ext e1 = None) /\
     (b = true -> m_vm e1 = None) /\
     (precompiled_find X r = None -> m_vm e1 = None -> b = true)) /\
  (receiveAddress t = None ->
     b = bytes_empty (data t) /\
     m_vm e1 = Some (mkVM (U256.sub (gas t) (U256.wrap (txGas X (data t))))) /\
     exists x, m_ext e1 = Some x /\ ext_code x = data t /\ ext_data x = [] /\
               myAddress x = m_newAddress e1 /\ ext_value x = value t).
Proof.
  intros Hd Hsetup.
  destruct (setup_accepted X s lvl _rlp e1 b Hsetup) as (t0 & Hd0 & _ & Hdisp).
  rewrite Hd in Hd0. injection Hd0 as <-.
  unfold dispatch in Hdisp.
  cbn [m_t m_sender charge set_s set_sender set_t Executive_new] in Hdisp.
  split.
  - intros r Hr. rewrite Hr in Hdisp.
    match type of Hdisp with call X ?e0 ?r ?c ?sd ?v ?gp ?d ?g ?o = _ =>
      pose proof (call_pairs_vm_and_adapter e0 r c sd v gp d g o eq_refl eq_refl) as H
    end.
    cbn zeta in H. rewrite Hdisp in H. exact H.
  - intros Hr. rewrite Hr in Hdisp.
    match type of Hdisp with create X ?e0 ?sd ?v ?gp ?g ?i ?o = _ =>
      pose proof (create_fields X e0 sd v gp g i o) as Hf
    end.
    cbn zeta in Hf. rewrite Hdisp in Hf. cbn [fst] in Hf.
    destruct Hf as (_ & _ & Hna & _ & Hvm & Hext & _).
    split.
    { unfold create in Hdisp. now injection Hdisp as _ <-. }
    split; [exact Hvm|].
    eexists. split; [exact Hext|]. cbn. rewrite Hna. repeat split.
Qed.

(** An accepted transaction leaves an adapter beside every interpreter and
    for every creation. *)
Lemma setup_adapter s lvl _rlp e1 b :
  setup X (Executive_new s lvl) _rlp = (e1, inr b) ->
  (is_Some (m_vm e1) -> is_Some (m_ext e1)) /\
  (isCreation (m_t e1) = true -> is_Some (m_ext e1)).
Proof.
  intros Hsetup.
  destruct (setup_accepted X s lvl _rlp e1 b Hsetup) as (t & Hd & _ & Hdisp).
  unfold dispatch in Hdisp.
  cbn [m_t m_sender charge set_s set_sender set_t Executive_new] in Hdisp.
  destruct (receiveAddress t) as [r|] eqn:Hr.
  - match type of Hdisp with call X ?e0 ?r ?c ?sd ?v ?gp ?d ?g ?o = _ =>
      pose proof (call_fields X e0 r c sd v gp d g o) as Hf
    end.
    cbn zeta in Hf. rewrite Hdisp in Hf. cbn [fst] in Hf.
    destruct Hf as (Ht & _ & _ & _ & _ & Hvm).
    split; [apply Hvm; reflexivity|].
    rewrite Ht.
    change (m_t (charge (set_sender (sender t) (set_t t (Executive_new s lvl)))))
      with t.
    unfold isCreation. rewrite Hr. discriminate.
  - match type of Hdisp with create X ?e0 ?sd ?v ?gp ?g ?i ?o = _ =>
      pose proof (create_fields X e0 sd v gp g i o) as Hf
    end.
    cbn zeta in Hf. rewrite Hdisp in Hf. cbn [fst] in Hf.
    destruct Hf as (_ & _ & _ & _ & _ & Hext & _).
    rewrite Hext. split; intros _; eexists; reflexivity.
Qed.

(** X4.  An accepted transaction never runs into a null adapter: after
    [setup] on a new executive, [go] and then [finalize] are defined,
    whatever the interpreter does. *)
Theorem execute_never_undefined (s : State) (lvl : Z) (_rlp : bytes) :
  execute X (Executive_new s lvl) _rlp <> Undefined.
Proof.
  unfold execute.
  destruct (setup X (Executive_new s lvl) _rlp) as [e1 [err|b]] eqn:Hsetup;
    [discriminate|].
  destruct (setup_adapter s lvl _rlp e1 b Hsetup) as (Hvm & Hcre).
  destruct (go X e1) as [[e2 b2]|] eqn:Hgo.
  - destruct (go_fields X e1 e2 b2 Hgo) as (Ht2 & _ & _ & Hx2 & _).
    assert (Hinv : isCreation (m_t e2) = true -> is_Some (m_ext e2)).
    { rewrite Ht2. intros Hc. apply Hx2, Hcre, Hc. }
    rewrite (finalize_unfold e2 Hinv). discriminate.
  - exfalso. unfold go in Hgo.
    destruct (m_vm e1) as [vm|]; [|discriminate].
    destruct Hvm as [x Hx]; [eexists; reflexivity|].
    rewrite Hx in Hgo. cbn zeta in Hgo.
    destruct (run_signal _); discriminate.
Qed.

End Handover.

(** X3, on a creation with an empty payload: [setup] returns [true] and
    an interpreter is set up all the same. *)
Lemma setup_result_and_interpreter_witness :
  snd (setup Scenario.deploying_nothing Scenario.fresh []) = inr true /\
  m_vm (fst (setup Scenario.deploying_nothing Scenario.fresh []))
    = Some (mkVM 400).
Proof.
  assert (Hsetup : setup Scenario.deploying_nothing (Executive_new Scenario.ledger 0) []
                   = (fst (setup Scenario.deploying_nothing Scenario.fresh []),
                      inr true)).
  { vm_compute. reflexivity. }
  destruct (setup_result_and_interpreter Scenario.deploying_nothing
              Scenario.ledger 0 [] Scenario.deploy_nothing
              (fst (setup Scenario.deploying_nothing Scenario.fresh []))
              true eq_refl Hsetup) as (_ & H).
  destruct (H eq_refl) as (_ & Hvm & _).
  split; [vm_compute; reflexivity | exact Hvm].
Defined.

(** ** Gas accounting *)

Section GasAccounting.

Variable X : Collaborators.

Lemma wrap_add_l a b : U256.wrap (U256.wrap a + b) = U256.wrap (a + b).
Proof. unfold U256.wrap. apply Zplus_mod_idemp_l. Qed.

Lemma wrap_add_r a b : U256.wrap (a + U256.wrap b) = U256.wrap (a + b).
Proof. unfold U256.wrap. apply Zplus_mod_idemp_r. Qed.

Lemma wrap_add_mul a b c : U256.wrap (a + U256.wrap b * c) = U256.wrap (a + b * c).
Proof.
  unfold U256.wrap.
  rewrite <- Zplus_mod_idemp_r, Zmult_mod_idemp_l. apply Zplus_mod_idemp_r.
Qed.

(** The call [setup] makes for an accepted message call. *)
Lemma setup_call s lvl _rlp t r e1 b :
  Transaction_decode X _rlp = Some t ->
  receiveAddress t = Some r ->
  setup X (Executive_new s lvl) _rlp = (e1, inr b) ->
  validate X s t = None /\
  call X (charge (set_sender (sender t) (set_t t (Executive_new s lvl))))
    r r (sender t) (value t) (gasPrice t) (data t)
    (U256.sub (gas t) (U256.wrap (txGas X (data t)))) (sender t) = (e1, b).
Proof.
  intros Hd Hr Hsetup.
  destruct (setup_accepted X s lvl _rlp e1 b Hsetup) as (t0 & Hd0 & Hval & Hdisp).
  rewrite Hd in Hd0. injection Hd0 as <-.
  split; [exact Hval|].
  unfold dispatch in Hdisp.
  change (m_t (charge (set_sender (sender t) (set_t t (Executive_new s lvl)))))
    with t in Hdisp.
  rewrite Hr in Hdisp. exact Hdisp.
Qed.

(** The gas [setup] supplies to the frame. *)
Lemma supplied_gas t :
  U256.in_range (gas t) -> 0 <= txGas X (data t) <= gas t ->
  U256.sub (gas t) (U256.wrap (txGas X (data t))) = gas t - txGas X (data t).
Proof.
  intros Hg Hi. unfold U256.in_range in Hg.
  rewrite U256Facts.wrap_small by (unfold U256.in_range; lia).
  apply U256Facts.sub_exact; [exact Hg|lia].
Qed.

(** X5.  A message call to an address with no code that is no native
    contract uses the intrinsic gas and nothing else: [setup] concludes
    ([true]) without an interpreter, end-gas is the gas limit less the
    intrinsic gas, [gasUsed()] is the intrinsic gas, [gas()] and
    [gasUsed()] add up to the gas limit, and [go] has nothing to do. *)
Theorem plain_transfer_uses_intrinsic_gas
    (s : State) (lvl : Z) (_rlp : bytes) (t : Transaction) (r : Address)
    (e1 : Executive) (b : bool) :
  Transaction_decode X _rlp = Some t ->
  receiveAddress t = Some r ->
  setup X (Executive_new s lvl) _rlp = (e1, inr b) ->
  precompiled_find X r = None ->
  addressHasCode s r = false ->
  U256.in_range (gas t) ->
  0 <= txGas X (data t) ->
  b = true /\
  m_vm e1 = None /\
  m_endGas e1 = gas t - txGas X (data t) /\
  Executive_gasUsed e1 = txGas X (data t) /\
  Executive_gas e1 + Executive_gasUsed e1 = gas t /\
  go X e1 = Some (e1, true).
Proof.
  intros Hd Hr Hsetup Hpre Hcode Hg Hi.
  destruct (setup_call s lvl _rlp t r e1 b Hd Hr Hsetup) as (Hval & Hcall).
  apply validate_None in Hval as (_ & Hfloor & _).
  rewrite call_plain in Hcall; [|exact Hpre|].
  2:{ unfold addressHasCode. rewrite code_charge. exact Hcode. }
  rewrite supplied_gas in Hcall by (try exact Hg; lia).
  injection Hcall as <- <-.
  assert (Hused : U256.sub (gas t) (gas t - txGas X (data t)) = txGas X (data t)).
  { unfold U256.in_range in Hg.
    rewrite U256Facts.sub_exact by (try exact Hg; lia). lia. }
  refine (conj eq_refl (conj eq_refl (conj eq_refl (conj Hused (conj _ _))))).
  - unfold Executive_gas, Executive_gasUsed. cbn. rewrite Hused. lia.
  - apply go_idle. reflexivity.
Qed.

(** X6.  A message call to a registered native contract never sets up an
    interpreter.  With at least the required gas left after the intrinsic
    gas, [setup] returns [true], the contract is executed once on the
    payload, and [gasUsed()] is the intrinsic gas plus the required gas;
    with less, [setup] returns [false], nothing is executed, end-gas is
    zero and [gasUsed()] is the whole gas limit. *)
Theorem native_call_gas
    (s : State) (lvl : Z) (_rlp : bytes) (t : Transaction) (r : Address)
    (p : PrecompiledAddress) (e1 : Executive) (b : bool) :
  Transaction_decode X _rlp = Some t ->
  receiveAddress t = Some r ->
  setup X (Executive_new s lvl) _rlp = (e1, inr b) ->
  0 <= r < 2 ^ 32 ->
  precompiled X !! r = Some p ->
  U256.in_range (gas t) ->
  0 <= txGas X (data t) ->
  0 <= pc_gas p (data t) ->
  let supplied := gas t - txGas X (data t) in
  let required := pc_gas p (data t) in
  m_vm e1 = None /\
  go X e1 = Some (e1, true) /\
  (required <= supplied ->
     b = true /\
     native_runs e1 = [(r, data t)] /\
     m_endGas e1 = supplied - required /\
     Executive_gasUsed e1 = txGas X (data t) + required) /\
  (supplied < required ->
     b = false /\
     native_runs e1 = [] /\
     m_endGas e1 = 0 /\
     Executive_gasUsed e1 = gas t).
Proof.
  intros Hd Hr Hsetup Hlow Hp Hg Hi Hreq. cbn zeta.
  destruct (setup_call s lvl _rlp t r e1 b Hd Hr Hsetup) as (Hval & Hcall).
  apply validate_None in Hval as (_ & Hfloor & _).
  unfold call in Hcall. rewrite (precompiled_find_low X r p Hlow Hp) in Hcall.
  rewrite supplied_gas in Hcall by (try exact Hg; lia).
  unfold U256.in_range in Hg.
  destruct (Z.ltb_spec (gas t - txGas X (data t)) (pc_gas p (data t))) as [Hlt|Hge];
    injection Hcall as <- <-.
  - split; [reflexivity|]. split; [apply go_idle; reflexivity|].
    split; [intros Hc; lia|]. intros _.
    repeat apply conj; try reflexivity.
    unfold Executive_gasUsed. cbn.
    rewrite U256Facts.sub_exact by (unfold U256.in_range; lia). lia.
  - split; [reflexivity|]. split; [apply go_idle; reflexivity|].
    split; [|intros Hc; lia]. intros _.
    assert (Hleft : U256.wrap (gas t - txGas X (data t) - pc_gas p (data t))
                    = gas t - txGas X (data t) - pc_gas p (data t)).
    { apply U256Facts.wrap_small. unfold U256.in_range. lia. }
    repeat apply conj; try reflexivity.
    + cbn. exact Hleft.
    + unfold Executive_gasUsed. cbn. rewrite Hleft.
      rewrite U256Facts.sub_exact by (unfold U256.in_range; lia). lia.
Qed.

(** X7.  [finalize] hands out the whole gas prepayment: the refund to the
    sender and the fee to the block's fee recipient add up to
    [gas * gasPrice] (in [u256] arithmetic), whatever the end-gas is; when
    the sender is the fee recipient, its balance grows by the whole
    prepayment. *)
Theorem finalize_hands_out_prepayment (e e3 : Executive) :
  finalize e = Some e3 ->
  (isCreation (m_t e) = true -> is_Some (m_ext e)) ->
  let sd := m_sender e in
  let cb := coinbaseAddress (m_currentBlock (m_s e)) in
  let prepaid := gas (m_t e) * gasPrice (m_t e) in
  sd ∉ doomed e ->
  cb ∉ doomed e ->
  (sd = cb -> balance (m_s e3) sd = U256.wrap (balance (m_s e) sd + prepaid)) /\
  (sd <> cb ->
     U256.wrap (balance (m_s e3) sd + balance (m_s e3) cb)
       = U256.wrap (balance (m_s e) sd + balance (m_s e) cb + prepaid)).
Proof.
  intros Hfin Hinv. cbn zeta. intros Hsd Hcb.
  pose proof (finalize_balance e e3 _ Hfin Hinv Hsd) as Hbs.
  pose proof (finalize_balance e e3 _ Hfin Hinv Hcb) as Hbc.
  cbn zeta in Hbs, Hbc. unfold feesEarned in Hbs, Hbc.
  set (bs := balance (m_s e) (m_sender e)) in *.
  set (bc := balance (m_s e) (coinbaseAddress (m_currentBlock (m_s e)))) in *.
  set (eg := m_endGas e) in *. set (g := gas (m_t e)) in *.
  set (gp := gasPrice (m_t e)) in *.
  split.
  - intros Heq. rewrite Hbs.
    rewrite (bool_decide_eq_true_2 (m_sender e = m_sender e) eq_refl).
    rewrite (bool_decide_eq_true_2 _ Heq).
    unfold U256.mul, U256.sub.
    rewrite wrap_add_l, wrap_add_r, wrap_add_mul.
    replace (bs + U256.wrap (eg * gp) + (g - eg) * gp)
      with (bs + (g - eg) * gp + U256.wrap (eg * gp)) by ring.
    rewrite wrap_add_r. f_equal. ring.
  - intros Hne. rewrite Hbs, Hbc.
    rewrite (bool_decide_eq_true_2 (m_sender e = m_sender e) eq_refl).
    rewrite (bool_decide_eq_false_2 _ Hne).
    rewrite (bool_decide_eq_true_2
               (coinbaseAddress (m_currentBlock (m_s e))
                = coinbaseAddress (m_currentBlock (m_s e))) eq_refl).
    rewrite bool_decide_eq_false_2 by (intros Heq; apply Hne; now symmetry).
    unfold U256.mul, U256.sub.
    rewrite wrap_add_l, wrap_add_r.
    replace (bs + U256.wrap (eg * gp) + (bc + U256.wrap (U256.wrap (g - eg) * gp)))
      with (bs + U256.wrap (eg * gp) + bc + U256.wrap (U256.wrap (g - eg) * gp)) by ring.
    rewrite wrap_add_r, wrap_add_mul.
    replace (bs + U256.wrap (eg * gp) + bc + (g - eg) * gp)
      with (bs + bc + (g - eg) * gp + U256.wrap (eg * gp)) by ring.
    rewrite wrap_add_r. f_equal. ring.
Qed.

End GasAccounting.

(** X5, on scenario 1 with an intrinsic gas of 10. *)
Lemma plain_transfer_uses_intrinsic_gas_witness :
  Executive_gasUsed (fst (setup Scenario.taxed Scenario.fresh [])) = 10.
Proof.
  assert (Hsetup : setup Scenario.taxed (Executive_new Scenario.ledger 0) []
                   = (fst (setup Scenario.taxed Scenario.fresh []), inr true)).
  { vm_compute. reflexivity. }
  destruct (plain_transfer_uses_intrinsic_gas Scenario.taxed Scenario.ledger 0 []
              Scenario.transfer Scenario.bob
              (fst (setup Scenario.taxed Scenario.fresh [])) true
              eq_refl eq_refl Hsetup eq_refl eq_refl)
    as (_ & _ & _ & Hused & _).
  - vm_compute. split; [discriminate | reflexivity].
  - vm_compute. discriminate.
  - exact Hused.
Defined.

(** X6, on a payment to the native contract with 590 gas supplied and 500
    required. *)
Lemma native_call_gas_witness :
  native_runs (fst (setup Scenario.native_taxed Scenario.fresh [])) = [(2, [4])] /\
  Executive_gasUsed (fst (setup Scenario.native_taxed Scenario.fresh [])) = 510.
Proof.
  assert (Hsetup : setup Scenario.native_taxed (Executive_new Scenario.ledger 0) []
                   = (fst (setup Scenario.native_taxed Scenario.fresh []), inr true)).
  { vm_compute. reflexivity. }
  destruct (native_call_gas Scenario.native_taxed Scenario.ledger 0 []
              Scenario.pay_native_enough 2 Scenario.identity_contract
              (fst (setup Scenario.native_taxed Scenario.fresh [])) true
              eq_refl eq_refl Hsetup)
    as (_ & _ & Henough & _).
  - vm_compute. split; [discriminate | reflexivity].
  - reflexivity.
  - vm_compute. split; [discriminate | reflexivity].
  - vm_compute. discriminate.
  - vm_compute. discriminate.
  - destruct Henough as (_ & Hruns & _ & Hused).
    + vm_compute. discriminate.
    + split; [exact Hruns | exact Hused].
Defined.

(** X7, on the creation that ended with 85 of 400 gas at gas price 2. *)
Lemma finalize_hands_out_prepayment_witness :
  exists e3,
    finalize Scenario.created = Some e3 /\
    U256.wrap (balance (m_s e3) (m_sender Scenario.created)
               + balance (m_s e3)
                   (coinbaseAddress (m_currentBlock (m_s Scenario.created))))
      = U256.wrap (balance (m_s Scenario.created) (m_sender Scenario.created)
                   + balance (m_s Scenario.created)
                       (coinbaseAddress (m_currentBlock (m_s Scenario.created)))
                   + gas (m_t Scenario.created) * gasPrice (m_t Scenario.created)).
Proof.
  destruct (finalize Scenario.created) as [e3|] eqn:Hfin;
    [|vm_compute in Hfin; discriminate].
  exists e3. split; [reflexivity|].
  assert (Hnone : forall a, a ∉ doomed Scenario.created).
  { intros a. assert (Hd : doomed Scenario.created = ∅) by (vm_compute; reflexivity).
    rewrite Hd. apply not_elem_of_empty. }
  destruct (finalize_hands_out_prepayment Scenario.created e3 Hfin) as (_ & Hsum).
  - intros _. vm_compute. eexists. reflexivity.
  - apply Hnone.
  - apply Hnone.
  - apply Hsum. vm_compute. discriminate.
Defined.

(** ** How [go] ends *)

Section GoOutcomes.

Variable X : Collaborators.

Lemma balance_cache_range s a :
  map_Forall (fun _ acc => wf_Account acc) (m_cache s) -> U256.in_range (balance s a).
Proof.
  intros Hc. unfold balance, account.
  destruct (m_cache s !! a) as [acc|] eqn:E; simpl.
  - apply (Hc a acc E).
  - apply account_default_wf.
Qed.

Lemma lookup_update_is_Some f a b s :
  is_Some (m_cache s !! b) -> is_Some (m_cache (update_account f a s) !! b).
Proof.
  intros H. destruct (decide (a = b)) as [->|Hne].
  - rewrite lookup_update_eq. eexists; reflexivity.
  - now rewrite lookup_update_ne.
Qed.

Lemma mul_zero_l gp : U256.mul 0 gp = 0.
Proof. unfold U256.mul, U256.wrap. rewrite Z.mul_0_l. apply Z.mod_0_l.
  pose proof U256Facts.modulus_pos. lia. Qed.

(** X8.  A frame that ends in a [VMException] forfeits all its gas:
    [gasUsed()] is the whole gas limit, and [finalize] then credits the
    block's fee recipient [gas * gasPrice], leaves every other balance as
    the interpreter left it (the sender gets nothing back), and removes no
    account. *)
Theorem fault_forfeits_all_gas (e : Executive) (vm : VM) (x : ExtVM) :
  m_vm e = Some vm ->
  m_ext e = Some x ->
  let r := vm_go X (m_s e) x (vm_gas vm) in
  let cb := coinbaseAddress (m_currentBlock (m_s e)) in
  run_signal r = VMException ->
  U256.in_range (gas (m_t e)) ->
  map_Forall (fun _ acc => wf_Account acc) (run_cache r) ->
  exists e' e3,
    go X e = Some (e', true) /\
    finalize e' = Some e3 /\
    Executive_gasUsed e' = gas (m_t e) /\
    (forall a, a <> cb -> balance (m_s e3) a = balance (m_s e') a) /\
    balance (m_s e3) cb
      = U256.wrap (balance (m_s e') cb + U256.mul (gas (m_t e)) (gasPrice (m_t e))) /\
    (forall a, is_Some (m_cache (m_s e') !! a) -> is_Some (m_cache (m_s e3) !! a)).
Proof.
  intros Hvm Hext. cbn zeta. intros Hsig Hg Hwf.
  rewrite (go_unfold X e vm x Hvm Hext). cbn zeta. rewrite Hsig.
  set (r := vm_go X (m_s e) x (vm_gas vm)) in *.
  set (e' := set_excepted true
               (set_ext (Some (revert (with_sub (run_sub r) x)))
                  (set_endGas 0
                     (set_ext (Some (with_sub (run_sub r) x))
                        (set_vm (Some (mkVM (run_gas r)))
                           (set_s (with_cache (run_cache r) (m_s e)) e)))))).
  assert (Hinv : isCreation (m_t e') = true -> is_Some (m_ext e')).
  { intros _. eexists. reflexivity. }
  assert (Hnone : forall a, a ∉ doomed e').
  { intros a. change (doomed e') with (∅ : gset Z). apply not_elem_of_empty. }
  destruct (finalize e') as [e3|] eqn:Hfin.
  2:{ rewrite (finalize_unfold e' Hinv) in Hfin. discriminate. }
  assert (Hsub : U256.sub (gas (m_t e)) 0 = gas (m_t e)).
  { rewrite U256Facts.sub_exact; [lia | exact Hg |].
    unfold U256.in_range in Hg. lia. }
  assert (Hrange : forall a, U256.in_range (balance (m_s e') a)).
  { intros a. apply balance_cache_range. exact Hwf. }
  exists e', e3. split; [reflexivity|]. split; [exact Hfin|].
  split; [exact Hsub|].
  refine (conj _ (conj _ _)).
  - intros a Ha. rewrite (finalize_balance e' e3 a Hfin Hinv (Hnone a)). cbn zeta.
    change (m_currentBlock (m_s e')) with (m_currentBlock (m_s e)).
    rewrite (bool_decide_eq_false_2 _ Ha).
    change (m_endGas e') with 0. rewrite mul_zero_l, Z.add_0_r.
    rewrite U256Facts.wrap_small by apply Hrange.
    now destruct (bool_decide (a = m_sender e')).
  - rewrite (finalize_balance e' e3 _ Hfin Hinv (Hnone _)). cbn zeta.
    change (m_currentBlock (m_s e')) with (m_currentBlock (m_s e)).
    rewrite (bool_decide_eq_true_2 _ eq_refl).
    change (m_endGas e') with 0. rewrite mul_zero_l, Z.add_0_r.
    rewrite (U256Facts.wrap_small (balance (m_s e') _)) by apply Hrange.
    unfold feesEarned. change (m_endGas e') with 0. change (m_t e') with (m_t e).
    rewrite Hsub. now destruct (bool_decide _).
  - intros a Ha. rewrite (finalize_unfold e' Hinv) in Hfin. cbn zeta in Hfin.
    injection Hfin as <-. cbn [m_s set_s].
    rewrite lookup_kill_all, (bool_decide_eq_false_2 _ (Hnone a)).
    unfold addBalance. apply lookup_update_is_Some, lookup_update_is_Some.
    destruct (_ && _); [apply lookup_update_is_Some|]; exact Ha.
Qed.

(** X9.  [go] returns [false] exactly when the interpreter stopped on the
    step limit; it then leaves end-gas, output, logs and the excepted flag
    as they were, and [gas()] reads what the interpreter has left. *)
Theorem go_false_iff_steps_done (e e' : Executive) (b : bool) :
  go X e = Some (e', b) ->
  (b = false <->
     exists vm x, m_vm e = Some vm /\ m_ext e = Some x /\
                  run_signal (vm_go X (m_s e) x (vm_gas vm)) = StepsDone) /\
  (b = false ->
     m_endGas e' = m_endGas e /\ m_out e' = m_out e /\ m_logs e' = m_logs e /\
     m_excepted e' = m_excepted e /\
     exists vm x, m_vm e = Some vm /\ m_ext e = Some x /\
                  Executive_gas e' = run_gas (vm_go X (m_s e) x (vm_gas vm))).
Proof.
  intros Hgo. unfold go in Hgo.
  destruct (m_vm e) as [vm|] eqn:Hvm.
  2:{ injection Hgo as <- <-. split.
      - split; [discriminate|]. intros (vm & x & H & _). discriminate.
      - discriminate. }
  destruct (m_ext e) as [x|] eqn:Hx; [|discriminate].
  cbn zeta in Hgo.
  destruct (run_signal (vm_go X (m_s e) x (vm_gas vm))) eqn:Hsig;
    injection Hgo as <- <-.
  2:{ split.
      - split; [|reflexivity]. intros _. exists vm, x. now repeat split.
      - intros _. repeat apply conj; try reflexivity.
        exists vm, x. now repeat split. }
  all: split; [split; [discriminate|] | discriminate].
  all: intros (vm' & x' & [= <-] & [= <-] & Hs); rewrite Hsig in Hs; discriminate.
Qed.

(** X10.  An exception of the interpreter that is no [VMException] (the
    two handlers that only warn) makes [go] return [true] with the
    excepted flag, end-gas, output and logs untouched and the adapter not
    reverted: the ledger stays as the interpreter left it, and [finalize]
    still removes the accounts marked for self-destruction before the
    exception. *)
Theorem unexpected_exception_is_swallowed (e : Executive) (vm : VM) (x : ExtVM) :
  m_vm e = Some vm ->
  m_ext e = Some x ->
  let r := vm_go X (m_s e) x (vm_gas vm) in
  run_signal r = Exception \/ run_signal r = StdException ->
  exists e',
    go X e = Some (e', true) /\
    m_excepted e' = m_excepted e /\
    m_endGas e' = m_endGas e /\
    m_out e' = m_out e /\
    m_logs e' = m_logs e /\
    m_s e' = with_cache (run_cache r) (m_s e) /\
    doomed e' = suicides (run_sub r) /\
    exists e3,
      finalize e' = Some e3 /\
      forall a, a ∈ suicides (run_sub r) -> m_cache (m_s e3) !! a = None.
Proof.
  intros Hvm Hext. cbn zeta. intros Hsig.
  rewrite (go_unfold X e vm x Hvm Hext). cbn zeta.
  set (r := vm_go X (m_s e) x (vm_gas vm)) in *.
  set (e' := set_ext (Some (with_sub (run_sub r) x))
               (set_vm (Some (mkVM (run_gas r)))
                  (set_s (with_cache (run_cache r) (m_s e)) e))).
  assert (Hinv : isCreation (m_t e') = true -> is_Some (m_ext e')).
  { intros _. eexists. reflexivity. }
  assert (Hgo : match run_signal r with
                | Returned out => Some (conclude X e' out (run_gas r)
                                          (with_sub (run_sub r) x), true)
                | StepsDone => Some (e', false)
                | VMException =>
                    Some (set_excepted true
                            (set_ext (Some (revert (with_sub (run_sub r) x)))
                               (set_endGas 0 e')), true)
                | Exception => Some (e', true)
                | StdException => Some (e', true)
                end = Some (e', true)).
  { destruct Hsig as [-> | ->]; reflexivity. }
  rewrite Hgo. exists e'.
  repeat (split; [reflexivity|]).
  destruct (finalize e') as [e3|] eqn:Hfin.
  2:{ rewrite (finalize_unfold e' Hinv) in Hfin. discriminate. }
  exists e3. split; [reflexivity|].
  intros a Ha. apply (finalize_doomed e' e3 a Hfin Hinv). exact Ha.
Qed.

End GoOutcomes.

(** X8, on scenario 4: the faulting call uses all 50 gas. *)
Lemma fault_forfeits_all_gas_witness :
  exists e' e3,
    go Scenario.faulting (Scenario.in_frame Scenario.faulting) = Some (e', true) /\
    finalize e' = Some e3 /\
    Executive_gasUsed e' = 50.
Proof.
  destruct (fault_forfeits_all_gas Scenario.faulting
              (Scenario.in_frame Scenario.faulting) (mkVM 50)
              Scenario.library_frame eq_refl eq_refl eq_refl)
    as (e' & e3 & Hgo & Hfin & Hused & _).
  - vm_compute. split; [discriminate | reflexivity].
  - apply (wf_State_check (m_s (Scenario.in_frame Scenario.faulting))).
    vm_compute. reflexivity.
  - exists e', e3. exact (conj Hgo (conj Hfin Hused)).
Defined.

(** X9, on a run that stops on the step limit. *)
Lemma go_false_iff_steps_done_witness :
  exists e',
    go Scenario.stepping (Scenario.in_frame Scenario.stepping) = Some (e', false) /\
    m_endGas e' = m_endGas (Scenario.in_frame Scenario.stepping) /\
    m_excepted e' = m_excepted (Scenario.in_frame Scenario.stepping).
Proof.
  destruct (go Scenario.stepping (Scenario.in_frame Scenario.stepping))
    as [[e' b]|] eqn:Hgo; [|vm_compute in Hgo; discriminate].
  assert (Hb : b = false).
  { apply (go_false_iff_steps_done Scenario.stepping _ e' b Hgo).
    exists (mkVM 50), Scenario.library_frame. repeat split. }
  subst b. exists e'. split; [reflexivity|].
  destruct (go_false_iff_steps_done Scenario.stepping _ e' false Hgo) as (_ & H).
  destruct (H eq_refl) as (Hgas & _ & _ & Hexc & _).
  split; [exact Hgas | exact Hexc].
Defined.

(** X10, on a run that dies of an unexpected exception after marking the
    contract for destruction: the contract is removed all the same. *)
Lemma unexpected_exception_is_swallowed_witness :
  exists e' e3,
    go Scenario.crashing (Scenario.in_frame Scenario.crashing) = Some (e', true) /\
    m_excepted e' = false /\
    finalize e' = Some e3 /\
    m_cache (m_s e3) !! Scenario.library = None.
Proof.
  destruct (unexpected_exception_is_swallowed Scenario.crashing
              (Scenario.in_frame Scenario.crashing) (mkVM 50)
              Scenario.library_frame eq_refl eq_refl (or_introl eq_refl))
    as (e' & Hgo & Hexc & _ & _ & _ & _ & _ & e3 & Hfin & Hdead).
  exists e', e3. split; [exact Hgo|]. split; [exact Hexc|]. split; [exact Hfin|].
  apply Hdead.
  change (Scenario.library ∈ ({[ Scenario.library ]} : gset Z)).
  apply elem_of_singleton. reflexivity.
Defined.

(** ** Invariants of the life cycle *)

Section LifecycleInvariants.

Variable X : Collaborators.

Lemma precompiled_find_Some r k p :
  precompiled_find X r = Some (k, p) -> precompiled X !! k = Some p.
Proof.
  unfold precompiled_find. destruct (_ =? 0); [|discriminate].
  destruct (precompiled X !! (r mod 2 ^ 32)) as [p0|] eqn:E; [|discriminate].
  intros [= <- <-]. exact E.
Qed.

(** After [call] on an executive without interpreter: either none was set
    up and end-gas is between zero and the gas supplied, or one was set up
    over the gas supplied and end-gas is untouched. *)
Lemma call_end_gas e r c sd v gp d g o :
  m_vm e = None ->
  U256.in_range g ->
  (forall k p, precompiled X !! k = Some p -> 0 <= pc_gas p d) ->
  let e1 := fst (call X e r c sd v gp d g o) in
  (m_vm e1 = None /\ 0 <= m_endGas e1 <= g) \/
  (m_vm e1 = Some (mkVM g) /\ is_Some (m_ext e1) /\ m_endGas e1 = m_endGas e).
Proof.
  intros Hvm Hg Hpc. cbn zeta. unfold call. unfold U256.in_range in Hg.
  destruct (precompiled_find X r) as [[k p]|] eqn:Hf.
  - pose proof (Hpc k p (precompiled_find_Some r k p Hf)) as Hp.
    destruct (Z.ltb_spec g (pc_gas p d)); left; cbn; (split; [exact Hvm|]); [lia|].
    rewrite U256Facts.wrap_small by (unfold U256.in_range; lia). lia.
  - cbn [m_s set_s set_isCreation].
    destruct (addressHasCode _ c).
    + right. cbn. split; [reflexivity|]. split; [eexists; reflexivity|reflexivity].
    + left. cbn. split; [exact Hvm|lia].
Qed.

(** What a run of [go] does to end-gas, when the interpreter gives back no
    more gas than the gas limit and no negative refund. *)
Lemma go_end_gas_bound e e2 b2 vm x :
  m_vm e = Some vm ->
  m_ext e = Some x ->
  U256.in_range (gas (m_t e)) ->
  0 <= m_endGas e <= gas (m_t e) ->
  0 <= run_gas (vm_go X (m_s e) x (vm_gas vm)) <= gas (m_t e) ->
  0 <= refunds (run_sub (vm_go X (m_s e) x (vm_gas vm))) ->
  go X e = Some (e2, b2) ->
  0 <= m_endGas e2 <= gas (m_t e).
Proof.
  intros Hvm Hext Hg He Hraw Href Hgo.
  rewrite (go_unfold X e vm x Hvm Hext) in Hgo. cbn zeta in Hgo.
  set (r := vm_go X (m_s e) x (vm_gas vm)) in *.
  unfold U256.in_range in Hg.
  destruct (run_signal r) as [out| | | |]; injection Hgo as <- _; cbn; try lia.
  rewrite conclude_endGas. cbn zeta.
  cbn [m_t m_isCreation set_ext set_vm set_s sub with_sub].
  set (raw := run_gas r) in *.
  assert (Hs : U256.sub (gas (m_t e)) raw = gas (m_t e) - raw).
  { apply U256Facts.sub_exact; unfold U256.in_range; lia. }
  rewrite Hs.
  set (refund := Z.min ((gas (m_t e) - raw) / 2) (refunds (run_sub r))).
  assert (Hh : 0 <= (gas (m_t e) - raw) / 2 /\ 2 * ((gas (m_t e) - raw) / 2) <= gas (m_t e) - raw).
  { split; [apply Z.div_pos; lia | apply Z.mul_div_le; lia]. }
  assert (Hrf : 0 <= refund /\ raw + refund <= gas (m_t e)) by (unfold refund; lia).
  rewrite (U256Facts.add_exact raw refund) by lia.
  pose proof (U256Facts.mul_range (size out) (c_createDataGas X)) as Hdep.
  unfold U256.in_range in Hdep.
  destruct (m_isCreation e); cbn [andb]; [|lia].
  destruct (Z.leb_spec (U256.mul (size out) (c_createDataGas X)) (raw + refund)); [|lia].
  rewrite U256Facts.sub_exact by (unfold U256.in_range; lia). lia.
Qed.

(** X11.  For an accepted transaction, when the intrinsic gas and the gas
    asked by native contracts are not negative and the interpreter gives
    back no more gas than it was given and no negative refund, the end-gas
    after [go] lies between zero and the gas limit: [gasUsed()] is
    [gas - endGas] without wrap-around and never exceeds the gas limit. *)
Theorem end_gas_within_limit
    (s : State) (lvl : Z) (_rlp : bytes) (t : Transaction)
    (e1 e2 : Executive) (b b2 : bool) :
  Transaction_decode X _rlp = Some t ->
  setup X (Executive_new s lvl) _rlp = (e1, inr b) ->
  go X e1 = Some (e2, b2) ->
  U256.in_range (gas t) ->
  0 <= txGas X (data t) ->
  (forall k p, precompiled X !! k = Some p -> 0 <= pc_gas p (data t)) ->
  (forall vm x, m_vm e1 = Some vm -> m_ext e1 = Some x ->
     0 <= run_gas (vm_go X (m_s e1) x (vm_gas vm)) <= vm_gas vm /\
     0 <= refunds (run_sub (vm_go X (m_s e1) x (vm_gas vm)))) ->
  0 <= m_endGas e2 <= gas t /\
  Executive_gasUsed e2 = gas t - m_endGas e2 /\
  0 <= Executive_gasUsed e2 <= gas t.
Proof.
  intros Hd Hsetup Hgo Hg Hi Hpc Hrun.
  destruct (setup_accepted X s lvl _rlp e1 b Hsetup) as (t0 & Hd0 & Hval & Hdisp).
  rewrite Hd in Hd0. injection Hd0 as <-.
  apply validate_None in Hval as (_ & Hfloor & _).
  pose proof (supplied_gas X t Hg (conj Hi Hfloor)) as Hsup.
  set (e0 := charge (set_sender (sender t) (set_t t (Executive_new s lvl)))) in *.
  assert (Hframe : m_t e1 = t /\
                   ((m_vm e1 = None /\ 0 <= m_endGas e1 <= gas t) \/
                    (m_vm e1 = Some (mkVM (gas t - txGas X (data t))) /\
                     is_Some (m_ext e1) /\ m_endGas e1 = 0))).
  { unfold dispatch in Hdisp. change (m_t e0) with t in Hdisp.
    destruct (receiveAddress t) as [r|].
    - rewrite Hsup in Hdisp.
      match type of Hdisp with call X e0 ?r ?c ?sd ?v ?gp ?d ?g ?o = _ =>
        pose proof (call_fields X e0 r c sd v gp d g o) as Hf;
        pose proof (call_end_gas e0 r c sd v gp d g o eq_refl) as Hc
      end.
      cbn zeta in Hf, Hc. rewrite Hdisp in Hf, Hc. cbn [fst] in Hf, Hc.
      destruct Hf as (Ht & _). split; [exact Ht|].
      unfold U256.in_range in Hg.
      destruct Hc as [(Hv & He)|(Hv & Hx & He)];
        [unfold U256.in_range; lia | exact Hpc | left | right].
      + split; [exact Hv|lia].
      + split; [exact Hv|]. split; [exact Hx|exact He].
    - rewrite Hsup in Hdisp.
      match type of Hdisp with create X e0 ?sd ?v ?gp ?g ?i ?o = _ =>
        pose proof (create_fields X e0 sd v gp g i o) as Hf
      end.
      cbn zeta in Hf. rewrite Hdisp in Hf. cbn [fst] in Hf.
      destruct Hf as (Ht & _ & _ & _ & Hv & Hx & _).
      split; [exact Ht|]. right. split; [exact Hv|].
      split; [rewrite Hx; eexists; reflexivity|].
      unfold create in Hdisp. now injection Hdisp as <- _. }
  destruct Hframe as (Ht1 & Hcases).
  destruct (go_fields X e1 e2 b2 Hgo) as (Ht2 & _ & _ & _ & Hidle).
  assert (Hend : 0 <= m_endGas e2 <= gas t).
  { destruct Hcases as [(Hv & He)|(Hv & (x & Hx) & He)].
    - rewrite (Hidle Hv). exact He.
    - destruct (Hrun _ x Hv Hx) as (Hraw & Href). cbn [vm_gas] in Hraw.
      rewrite <- Ht1.
      apply (go_end_gas_bound e1 e2 b2 _ x Hv Hx); rewrite ?Ht1; try assumption.
      + rewrite He. unfold U256.in_range in Hg. lia.
      + cbn [vm_gas]. lia. }
  assert (Hused : Executive_gasUsed e2 = gas t - m_endGas e2).
  { unfold Executive_gasUsed. rewrite Ht2, Ht1.
    apply U256Facts.sub_exact; [exact Hg|exact Hend]. }
  split; [exact Hend|]. split; [exact Hused|]. rewrite Hused. lia.
Qed.

(** X12.  A transaction cannot be replayed: once it has been accepted and
    finalized, with the executed code leaving the sender's nonce alone and
    not marking the sender for self-destruction, [setup] of the same bytes
    on the resulting ledger state throws [InvalidNonce] and changes
    nothing. *)
Theorem replay_is_rejected
    (s : State) (lvl lvl' : Z) (_rlp : bytes) (t : Transaction)
    (e1 e2 e3 : Executive) (b b2 : bool) :
  wf_State s ->
  Transaction_decode X _rlp = Some t ->
  setup X (Executive_new s lvl) _rlp = (e1, inr b) ->
  go X e1 = Some (e2, b2) ->
  finalize e2 = Some e3 ->
  transactionsFrom (m_s e2) (sender t) = transactionsFrom (m_s e1) (sender t) ->
  sender t ∉ doomed e2 ->
  (receiveAddress t = None -> m_newAddress e1 <> sender t) ->
  transactionsFrom (m_s e3) (sender t) = U256.add (nonce t) 1 /\
  exists e4,
    setup X (Executive_new (m_s e3) lvl') _rlp
      = (e4, inl (InvalidNonce (U256.add (nonce t) 1) (nonce t))) /\
    m_s e4 = m_s e3.
Proof.
  intros Hwf Hd Hsetup Hgo Hfin Hkeep Hdoom Hnew.
  destruct (setup_accepted X s lvl _rlp e1 b Hsetup) as (t0 & Hd0 & Hval & _).
  rewrite Hd in Hd0. injection Hd0 as <-.
  apply validate_None in Hval as (Hn & _).
  pose proof (setup_frame X s lvl _rlp e1 b t Hwf Hd Hsetup) as Hf.
  cbn zeta in Hf. destruct Hf as (Ht1 & _ & _ & Hcre & _ & Hcall & Hcreate).
  pose proof (charge_state (set_sender (sender t) (set_t t (Executive_new s lvl))))
    as (Hcn & _).
  cbn [m_sender m_s set_sender set_t Executive_new] in Hcn.
  set (charged := m_s (charge (set_sender (sender t) (set_t t (Executive_new s lvl))))) in *.
  assert (Hn1 : transactionsFrom (m_s e1) (sender t) = U256.add (nonce t) 1).
  { rewrite Hn, <- Hcn. destruct (receiveAddress t) as [r|] eqn:Hr.
    - rewrite (Hcall r eq_refl). apply nonce_addBalance.
    - destruct (Hcreate eq_refl) as (_ & Hsame).
      unfold transactionsFrom, account. rewrite Hsame; [reflexivity|].
      intros Heq. apply Hnew; [reflexivity | now symmetry]. }
  destruct (go_fields X e1 e2 b2 Hgo) as (Ht2 & _ & _ & Hx2 & _).
  assert (Hinv : isCreation (m_t e2) = true -> is_Some (m_ext e2)).
  { rewrite Ht2, Ht1. intros Hc. apply Hx2, Hcre, Hc. }
  assert (Hn3 : transactionsFrom (m_s e3) (sender t) = U256.add (nonce t) 1).
  { rewrite (finalize_nonce e2 e3 _ Hfin Hinv Hdoom), Hkeep. exact Hn1. }
  split; [exact Hn3|].
  rewrite (setup_unfold X _ _rlp t Hd). cbn zeta.
  cbn [m_s Executive_new].
  unfold validate. rewrite Hn3.
  assert (Hne : nonce t <> U256.add (nonce t) 1).
  { pose proof (nonce_range s (sender t) Hwf) as Hr. rewrite <- Hn in Hr.
    unfold U256.in_range in Hr. unfold U256.add, U256.wrap.
    assert (HM : 1 < U256.modulus) by reflexivity.
    destruct (Z.eq_dec (nonce t + 1) U256.modulus) as [Heq|Hneq].
    - rewrite Heq, Z.mod_same by lia. lia.
    - rewrite Z.mod_small by lia. lia. }
  rewrite (proj2 (Z.eqb_neq _ _) Hne). cbn [negb].
  eexists. split; reflexivity.
Qed.

Lemma wrap_eq_of_divide a b : (U256.modulus | a - b) -> U256.wrap a = U256.wrap b.
Proof.
  intros [k Hk]. unfold U256.wrap.
  replace a with (b + k * U256.modulus) by lia. apply Z_mod_plus_full.
Qed.

(** Equalities between sums, differences and products reduced modulo
    [2^256] at any depth: every inner reduction is a multiple of the
    modulus away. *)
Ltac wrap_congruence :=
  unfold U256.add, U256.sub, U256.mul;
  apply wrap_eq_of_divide;
  unfold U256.wrap;
  pose proof U256Facts.modulus_pos;
  repeat match goal with
  | |- context [?x mod U256.modulus] =>
      lazymatch x with
      | context [_ mod U256.modulus] => fail
      | _ => rewrite (Z.mod_eq x U256.modulus) by lia;
             generalize (x / U256.modulus); intro
      end
  end;
  match goal with
  | |- (U256.modulus | ?p) =>
      let f := eval pattern U256.modulus in p in
      match f with
      | ?F _ => exists (F 1 - F 0); cbv beta; ring
      end
  end.

Lemma transfer_conserves bs br bc v g gp eg :
  U256.wrap (U256.wrap (U256.sub bs (U256.add v (U256.mul g gp)) + U256.mul eg gp)
             + U256.wrap (br + v)
             + U256.wrap (bc + U256.mul (U256.sub g eg) gp))
  = U256.wrap (bs + br + bc).
Proof. wrap_congruence. Qed.

(** X13.  A message call that runs no interpreter (plain transfer or
    native contract) neither makes nor loses funds: after [setup] and
    [finalize] the balances of sender, receiver and fee recipient add up to
    what they added up to before (in [u256] arithmetic), and every other
    account is untouched. *)
Theorem direct_call_conserves_funds
    (s : State) (lvl : Z) (_rlp : bytes) (t : Transaction) (r : Address)
    (e1 e3 : Executive) (b : bool) :
  wf_State s ->
  Transaction_decode X _rlp = Some t ->
  receiveAddress t = Some r ->
  setup X (Executive_new s lvl) _rlp = (e1, inr b) ->
  m_vm e1 = None ->
  finalize e1 = Some e3 ->
  let sd := sender t in
  let cb := coinbaseAddress (m_currentBlock s) in
  sd <> r -> sd <> cb -> r <> cb ->
  U256.wrap (balance (m_s e3) sd + balance (m_s e3) r + balance (m_s e3) cb)
    = U256.wrap (balance s sd + balance s r + balance s cb) /\
  (forall a, a <> sd -> a <> r -> a <> cb ->
     m_cache (m_s e3) !! a = m_cache s !! a).
Proof.
  intros Hwf Hd Hr Hsetup Hvm Hfin. cbn zeta. intros Hsr Hsc Hrc.
  pose proof (setup_frame X s lvl _rlp e1 b t Hwf Hd Hsetup) as Hf.
  cbn zeta in Hf. destruct Hf as (Ht1 & Hsd1 & _ & _ & _ & Hcall & _).
  specialize (Hcall r Hr).
  pose proof (charge_state (set_sender (sender t) (set_t t (Executive_new s lvl))))
    as (_ & Hcb & _ & Hco & Hcblk & _).
  cbn [m_sender m_s m_t set_sender set_t Executive_new] in Hcb, Hco, Hcblk.
  set (charged := m_s (charge (set_sender (sender t) (set_t t (Executive_new s lvl))))) in *.
  assert (Hext : m_ext e1 = None).
  { destruct (setup_call X s lvl _rlp t r e1 b Hd Hr Hsetup) as (_ & Hc).
    match type of Hc with call X ?e0 ?r ?c ?sd ?v ?gp ?d ?g ?o = _ =>
      pose proof (call_pairs_vm_and_adapter X e0 r c sd v gp d g o eq_refl eq_refl)
        as (Hp & _)
    end.
    rewrite Hc in Hp. now apply Hp. }
  assert (Hinv : isCreation (m_t e1) = true -> is_Some (m_ext e1)).
  { rewrite Ht1. unfold isCreation. rewrite Hr. discriminate. }
  assert (Hnd : forall a, a ∉ doomed e1).
  { intros a. unfold doomed. rewrite Hext. apply not_elem_of_empty. }
  assert (Hblk1 : m_currentBlock (m_s e1) = m_currentBlock s).
  { rewrite Hcall. exact Hcblk. }
  assert (Hother : forall a, a <> sender t -> balance charged a = balance s a).
  { intros a Ha. unfold balance, account. now rewrite Hco. }
  split.
  - rewrite !(finalize_balance e1 e3 _ Hfin Hinv (Hnd _)). cbn zeta.
    rewrite Hblk1, Hsd1, Ht1. unfold feesEarned. rewrite Ht1.
    rewrite (bool_decide_eq_true_2 (sender t = sender t) eq_refl).
    rewrite (bool_decide_eq_false_2 _ Hsc).
    rewrite (bool_decide_eq_false_2 (r = sender t)) by (intros E; now apply Hsr).
    rewrite (bool_decide_eq_false_2 _ Hrc).
    rewrite (bool_decide_eq_false_2 (coinbaseAddress (m_currentBlock s) = sender t))
      by (intros E; now apply Hsc).
    rewrite (bool_decide_eq_true_2 (coinbaseAddress (m_currentBlock s)
                                    = coinbaseAddress (m_currentBlock s)) eq_refl).
    rewrite Hcall.
    rewrite (balance_addBalance_ne charged r (sender t)) by (intros E; now apply Hsr).
    rewrite balance_addBalance_eq.
    rewrite (balance_addBalance_ne charged r (coinbaseAddress (m_currentBlock s)))
      by exact Hrc.
    rewrite Hcb, !Hother by (intros E; first [now apply Hsr | now apply Hsc]).
    unfold upfront_cost. apply transfer_conserves.
  - intros a Has Har Hac.
    rewrite (finalize_unfold e1 Hinv) in Hfin. cbn zeta in Hfin.
    injection Hfin as <-. cbn [m_s set_s].
    rewrite lookup_kill_all, (bool_decide_eq_false_2 _ (Hnd a)).
    rewrite Ht1. unfold isCreation at 1. rewrite Hr. cbn [andb].
    unfold addBalance at 1. rewrite lookup_update_ne.
    2:{ rewrite Hblk1. intros E. now apply Hac. }
    unfold addBalance at 1. rewrite lookup_update_ne.
    2:{ rewrite Hsd1. intros E. now apply Has. }
    rewrite Hcall. unfold addBalance. rewrite lookup_update_ne.
    2:{ intros E. now apply Har. }
    apply Hco. exact Has.
Qed.

(** X14.  [create] makes the account of the new address afresh: nonce
    zero, no code, no storage, and as balance what the address held before
    plus the endowment.  It changes no other account, so it neither debits
    the creator nor increments its nonce; the address is derived from the
    creator's current nonce less one in [u256] arithmetic, which for a
    nonce of zero is [2^256 - 1]. *)
Theorem create_makes_account_afresh (e : Executive) (sd : Address)
    (v gp g : Z) (init : bytes) (o : Address) :
  let e1 := fst (create X e sd v gp g init o) in
  let n := m_newAddress e1 in
  n = contract_address X sd (U256.sub (transactionsFrom (m_s e) sd) 1) /\
  (transactionsFrom (m_s e) sd = 0 ->
     n = contract_address X sd (U256.modulus - 1)) /\
  m_cache (m_s e1) !! n
    = Some (mkAccount (U256.add (balance (m_s e) n) v) 0 [] ∅) /\
  (forall a, a <> n -> m_cache (m_s e1) !! a = m_cache (m_s e) !! a) /\
  (n <> sd ->
     transactionsFrom (m_s e1) sd = transactionsFrom (m_s e) sd /\
     balance (m_s e1) sd = balance (m_s e) sd).
Proof.
  cbn zeta.
  destruct (create_fields X e sd v gp g init o) as (_ & _ & Hna & _ & _ & _ & Hs).
  cbn zeta in Hna, Hs.
  assert (Hother : forall a,
             a <> m_newAddress (fst (create X e sd v gp g init o)) ->
             m_cache (m_s (fst (create X e sd v gp g init o))) !! a
               = m_cache (m_s e) !! a).
  { intros a Ha. rewrite Hs. cbn [m_cache with_cache].
    rewrite lookup_insert_ne; [reflexivity|].
    intros E. apply Ha. rewrite Hna. now symmetry. }
  refine (conj Hna (conj _ (conj _ (conj Hother _)))).
  - intros H0. rewrite Hna, H0. reflexivity.
  - rewrite Hs at 1. cbn [m_cache with_cache]. rewrite Hna.
    rewrite lookup_insert_eq. reflexivity.
  - intros Hne. unfold transactionsFrom, balance, account.
    rewrite Hother by (intros E; apply Hne; now symmetry). now split.
Qed.

End LifecycleInvariants.

(** X11, on the call that returns with 20 of its 50 gas left and a refund
    counter of 40: end-gas is 35. *)
Lemma end_gas_within_limit_witness :
  0 <= m_endGas Scenario.after_call <= 50 /\
  Executive_gasUsed Scenario.after_call = 50 - m_endGas Scenario.after_call /\
  0 <= Executive_gasUsed Scenario.after_call <= 50.
Proof.
  assert (Hsetup : setup Scenario.refunding
                     (Executive_new Scenario.ledger_with_library 0) []
                   = (Scenario.in_frame Scenario.refunding, inr false))
    by (vm_compute; reflexivity).
  assert (Hgo : go Scenario.refunding (Scenario.in_frame Scenario.refunding)
                = Some (Scenario.after_call, true))
    by (vm_compute; reflexivity).
  assert (Hvm : m_vm (Scenario.in_frame Scenario.refunding) = Some (mkVM 50))
    by (vm_compute; reflexivity).
  apply (end_gas_within_limit Scenario.refunding Scenario.ledger_with_library 0 []
           Scenario.call_library _ _ false true eq_refl Hsetup Hgo).
  - vm_compute. split; [discriminate | reflexivity].
  - vm_compute. discriminate.
  - intros k p H. change (precompiled Scenario.refunding) with (∅ : gmap Z PrecompiledAddress) in H.
    rewrite lookup_empty in H. discriminate.
  - intros vm x Hv _. rewrite Hvm in Hv. injection Hv as <-.
    change (0 <= 20 <= 50 /\ 0 <= 40). lia.
Defined.

(** X12, on the same call after [finalize]: the sender's nonce is 1 and
    the transaction, of nonce 0, is thrown out. *)
Lemma replay_is_rejected_witness :
  transactionsFrom (m_s Scenario.settled) Scenario.alice = 1 /\
  exists e4,
    setup Scenario.refunding (Executive_new (m_s Scenario.settled) 1) []
      = (e4, inl (InvalidNonce 1 0)) /\
    m_s e4 = m_s Scenario.settled.
Proof.
  assert (Hsetup : setup Scenario.refunding
                     (Executive_new Scenario.ledger_with_library 0) []
                   = (Scenario.in_frame Scenario.refunding, inr false))
    by (vm_compute; reflexivity).
  assert (Hgo : go Scenario.refunding (Scenario.in_frame Scenario.refunding)
                = Some (Scenario.after_call, true))
    by (vm_compute; reflexivity).
  assert (Hfin : finalize Scenario.after_call = Some Scenario.settled)
    by (vm_compute; reflexivity).
  apply (replay_is_rejected Scenario.refunding Scenario.ledger_with_library 0 1 []
           Scenario.call_library (Scenario.in_frame Scenario.refunding)
           Scenario.after_call Scenario.settled false true).
  - apply wf_State_check. vm_compute. reflexivity.
  - reflexivity.
  - exact Hsetup.
  - exact Hgo.
  - exact Hfin.
  - vm_compute. reflexivity.
  - apply (bool_decide_eq_false_1 (Scenario.alice ∈ doomed Scenario.after_call)).
    vm_compute. reflexivity.
  - discriminate.
Defined.

(** X13, on the payment of 100 to the native contract at [2] by a sender
    holding 1000: sender, receiver and fee recipient hold 1000 between
    them afterwards. *)
Lemma direct_call_conserves_funds_witness :
  U256.wrap (balance (m_s Scenario.paid_native_settled) Scenario.alice
             + balance (m_s Scenario.paid_native_settled) 2
             + balance (m_s Scenario.paid_native_settled) Scenario.miner)
    = U256.wrap (balance Scenario.ledger Scenario.alice
                 + balance Scenario.ledger 2
                 + balance Scenario.ledger Scenario.miner).
Proof.
  assert (Hsetup : setup Scenario.native_taxed (Executive_new Scenario.ledger 0) []
                   = (Scenario.paid_native, inr true))
    by (vm_compute; reflexivity).
  assert (Hfin : finalize Scenario.paid_native = Some Scenario.paid_native_settled)
    by (vm_compute; reflexivity).
  assert (Hvm : m_vm Scenario.paid_native = None) by (vm_compute; reflexivity).
  assert (Hwf : wf_State Scenario.ledger)
    by (apply wf_State_check; vm_compute; reflexivity).
  apply (direct_call_conserves_funds Scenario.native_taxed Scenario.ledger 0 []
           Scenario.pay_native_enough 2 _ _ true Hwf eq_refl eq_refl Hsetup Hvm Hfin);
    discriminate.
Defined.
